(** * mockfrontend: the typed HTTP helper, the tasks client and the tasks view

    A shallow embedding of [mock-app/api/http.ts], of the tasks resource
    client built on it and of the state logic of the tasks page, followed by
    the properties the specification states about them.

    Conventions of the embedding.
    - A JavaScript string is a Rocq [string]; each character stands for the
      UTF-16 code unit of the same value, so the strings covered are those
      whose code units are below 256.
    - A JavaScript number is an IEEE 754 binary64 datum ([spec_float]).
    - A value of type [unknown] is a [JsValue]: [undefined], [null],
      booleans, numbers, strings, arrays and plain objects. On these values
      [JSON.stringify] cannot throw.
    - [JSON.parse] and [JSON.stringify] are built-ins of the host, not code of
      the repository: the program is parameterised by them ([Platform]), and
      [ReferenceJSON] gives an executable instance used in the examples.
    - [fetch] is the one effect. An asynchronous function is a tree
      ([Async]) whose nodes are the awaited exchanges; the continuation of a
      node receives the outcome of the exchange. A response carries its
      complete body text. *)

From Stdlib Require Import ZArith NArith Ascii String List Bool Lia.
From Stdlib Require Import Floats.SpecFloat.
From stdpp Require Import base option list strings gmap pretty.

Local Open Scope string_scope.

(** ** JavaScript values *)

#[warnings="-register-all"]
Inductive JsValue : Type :=
| JUndefined
| JNull
| JBool (b : bool)
| JNumber (x : spec_float)
| JString (s : string)
| JArray (items : list JsValue)
| JObject (props : list (string * JsValue)).

(** Truthiness of a string: every string but the empty one. *)
Definition truthy_string (s : string) : bool :=
  match s with
  | EmptyString => false
  | String _ _ => true
  end.

(** ECMAScript [ToBoolean], which [c ? a : b], [!c] and [a || b] apply. *)
Definition ToBoolean (v : JsValue) : bool :=
  match v with
  | JUndefined => false
  | JNull => false
  | JBool b => b
  | JNumber (S754_zero _) => false
  | JNumber S754_nan => false
  | JNumber _ => true
  | JString s => truthy_string s
  | JArray _ => true
  | JObject _ => true
  end.

(** An error object raised by the host: [TypeError], [SyntaxError], or an
    [Error] built by [new Error(message)]. *)
Record JsError : Type := { err_name : string; err_message : string }.

(** The result of a call into the host that may throw, and of a promise that
    may reject. *)
Inductive Completion (A : Type) : Type :=
| Returns (a : A)
| Throws (e : JsError).
Arguments Returns {A} a.
Arguments Throws {A} e.

(** The two JSON built-ins. [JSON_parse] throws a [SyntaxError] on a text
    that is not JSON; [JSON_stringify] yields [undefined] ([None]) or a
    text. *)
Class Platform : Type := {
  JSON_parse : string → Completion JsValue;
  JSON_stringify : JsValue → option string;
}.

(** ** http.ts *)

Module ApiError.
Record t : Type := mk {
  name : string;
  message : string;
  status : N;
  bodyText : string;
}.

(** [constructor(message, status, bodyText)] *)
Definition new (message : string) (status : N) (bodyText : string) : t :=
  {| name := "ApiError"; message := message;
     status := status; bodyText := bodyText |}.
End ApiError.

Inductive HttpMethod : Type := GET | POST | PATCH | PUT | DELETE.

(** The string a method stands for, as a template literal prints it. *)
Definition HttpMethod_string (m : HttpMethod) : string :=
  match m with
  | GET => "GET"
  | POST => "POST"
  | PATCH => "PATCH"
  | PUT => "PUT"
  | DELETE => "DELETE"
  end.

(** The DOM type [RequestCache]. *)
Inductive RequestCache : Type :=
| cache_default
| cache_force_cache
| cache_no_cache
| cache_no_store
| cache_only_if_cached
| cache_reload.

Module RequestOptions.
Record t : Type := mk {
  method : option HttpMethod;
  body : option JsValue;
  headers : option (gmap string string);
  cache : option RequestCache;
}.

(** The object literal [{}]. *)
Definition empty : t :=
  {| method := None; body := None; headers := None; cache := None |}.
End RequestOptions.

(** The second argument of [fetch]; a field that is absent or [undefined]
    is [None]. *)
Module RequestInit.
Record t : Type := mk {
  method : option HttpMethod;
  cache : option RequestCache;
  headers : option (gmap string string);
  body : option string;
}.
End RequestInit.

(** What the program reads of a [Response]: [res.status], [res.ok] and the
    text [res.text()] resolves to. *)
Module Response.
Record t : Type := mk {
  status : N;
  ok : bool;
  text : string;
}.

(** The response the Fetch standard builds for a status: [ok] is true
    exactly for the statuses 200 to 299. *)
Definition of_status (status : N) (text : string) : t :=
  {| status := status;
     ok := (200 <=? status)%N && (status <=? 299)%N;
     text := text |}.
End Response.

(** A thrown value is an [ApiError] of this repository or an error object
    of the host. *)
Inductive Thrown : Type :=
| ThrownApiError (e : ApiError.t)
| ThrownError (e : JsError).

(** The promise [fetch] returns is fulfilled with a response or rejected. *)
Definition FetchOutcome : Type := Completion Response.t.

(** A computation that awaits exchanges: it is done with a result, or it
    awaits one exchange and goes on with its outcome. *)
Inductive Await (R : Type) : Type :=
| Done (r : R)
| AwaitFetch (url : string) (init : RequestInit.t) (k : FetchOutcome → Await R).
Arguments Done {R} r.
Arguments AwaitFetch {R} url init k.

Fixpoint Await_bind {R R' : Type} (f : R → Await R') (m : Await R) : Await R' :=
  match m with
  | Done r => f r
  | AwaitFetch url init k => AwaitFetch url init (λ o, Await_bind f (k o))
  end.

(** The exchange a computation is waiting for, if it waits for one. *)
Definition issued {R : Type} (m : Await R) : option (string * RequestInit.t) :=
  match m with
  | AwaitFetch url init _ => Some (url, init)
  | Done _ => None
  end.

(** The computation after the exchange it waits for has had outcome [o]. *)
Definition resume {R : Type} (m : Await R) (o : FetchOutcome) : Await R :=
  match m with
  | AwaitFetch _ _ k => k o
  | Done _ => m
  end.

(** Running a computation against a remote side: [net] answers each exchange
    and moves the state [W] of the remote side. *)
Fixpoint run {W R : Type}
    (net : W → string → RequestInit.t → FetchOutcome * W)
    (w : W) (m : Await R) : R * W :=
  match m with
  | Done r => (r, w)
  | AwaitFetch url init k =>
      let '(o, w') := net w url init in run net w' (k o)
  end.

(** How the promise of an [async] function settles. *)
Inductive Settled (A : Type) : Type :=
| Fulfilled (a : A)
| Rejected (e : Thrown).
Arguments Fulfilled {A} a.
Arguments Rejected {A} e.

(** An [async] function without state of its own. *)
Definition Async (A : Type) : Type := Await (Settled A).

Definition Resolve {A : Type} (a : A) : Async A := Done (Fulfilled a).
Definition Reject {A : Type} (e : Thrown) : Async A := Done (Rejected e).

#[global] Instance Async_mret : MRet Async := λ A a, Resolve a.
#[global] Instance Async_mbind : MBind Async := λ A B f m,
  Await_bind (λ r, match r with
                   | Fulfilled a => f a
                   | Rejected e => Reject e
                   end) m.

(** [await fetch(url, init)] *)
Definition fetch (url : string) (init : RequestInit.t) : Async Response.t :=
  AwaitFetch url init (λ o,
    match o with
    | Returns res => Resolve res
    | Throws e => Reject (ThrownError e)
    end).

Section Http.
Context `{Platform}.

Definition http (url : string) (opts : option RequestOptions.t) : Async JsValue :=
  let opts := default RequestOptions.empty opts in
  let method := default GET (RequestOptions.method opts) in
  let body := default JUndefined (RequestOptions.body opts) in
  let headers := default ∅ (RequestOptions.headers opts) in
  let cache := default cache_no_store (RequestOptions.cache opts) in
  res ← fetch url
    {| RequestInit.method := Some method;
       RequestInit.cache := Some cache;
       RequestInit.headers :=
         Some (headers ∪
               (if ToBoolean body
                then {[ "Content-Type" := "application/json" ]}
                else ∅));
       RequestInit.body :=
         if ToBoolean body then JSON_stringify body else None |};
  let text := Response.text res in
  if negb (Response.ok res) then
    Reject (ThrownApiError
      (ApiError.new
         ("HTTP " +:+ pretty (Response.status res) +:+ " for " +:+
          HttpMethod_string method +:+ " " +:+ url)
         (Response.status res) text))
  else if negb (truthy_string text) then mret JUndefined
  else
    match JSON_parse text with
    | Returns v => mret v
    | Throws _ => mret (JString text)
    end.
End Http.

(** ** The tasks resource client *)

Module Task.
Record t : Type := mk {
  id : string;
  title : string;
  priority : string;
  status : string;
}.
End Task.

(** [Pick<Task, "title" | "priority" | "status">] *)
Module TaskPayload.
Record t : Type := mk {
  title : string;
  priority : string;
  status : string;
}.

(** The object a payload is at run time. *)
Definition to_js (p : t) : JsValue :=
  JObject [("title", JString (title p));
           ("priority", JString (priority p));
           ("status", JString (status p))].
End TaskPayload.

(** [Partial<Pick<Task, "priority" | "status">>]: each property may be
    absent. *)
Module TaskUpdates.
Record t : Type := mk {
  priority : option string;
  status : option string;
}.

(** The object literal [{}]. *)
Definition empty : t := {| priority := None; status := None |}.

(** The object an updates value is at run time: the properties that are
    present, [priority] before [status]. *)
Definition to_js (u : t) : JsValue :=
  JObject (match priority u with
           | Some p => [("priority", JString p)]
           | None => []
           end ++
           match status u with
           | Some s => [("status", JString s)]
           | None => []
           end).

(** [Object.keys(updates)] *)
Definition keys (u : t) : list string :=
  match priority u with Some _ => ["priority"] | None => [] end ++
  match status u with Some _ => ["status"] | None => [] end.
End TaskUpdates.

Definition BASE : string := "http://localhost:3001/tasks".

Module TasksAPI.
Section Client.
Context `{Platform}.

Definition create (payload : TaskPayload.t) : Async JsValue :=
  http BASE
    (Some {| RequestOptions.method := Some POST;
             RequestOptions.body := Some (TaskPayload.to_js payload);
             RequestOptions.headers := None;
             RequestOptions.cache := None |}).

Definition update (id : string) (updates : TaskUpdates.t) : Async JsValue :=
  http (BASE +:+ "/" +:+ id)
    (Some {| RequestOptions.method := Some PATCH;
             RequestOptions.body := Some (TaskUpdates.to_js updates);
             RequestOptions.headers := None;
             RequestOptions.cache := None |}).

Definition remove (id : string) : Async JsValue :=
  http (BASE +:+ "/" +:+ id)
    (Some {| RequestOptions.method := Some DELETE;
             RequestOptions.body := None;
             RequestOptions.headers := None;
             RequestOptions.cache := None |}).

Definition list : Async JsValue := http BASE None.
End Client.
End TasksAPI.

(** ** The tasks page: strings *)

(** The code units below 256 that [String.prototype.trim] strips: the white
    space TAB, VT, FF, SP, NBSP and the line terminators LF, CR. *)
Definition is_white_space (c : ascii) : bool :=
  let n := N_of_ascii c in
  ((9 <=? n) && (n <=? 13) || (n =? 32) || (n =? 160))%N.

Fixpoint trimStart (s : string) : string :=
  match s with
  | EmptyString => EmptyString
  | String c s' => if is_white_space c then trimStart s' else s
  end.

Fixpoint trimEnd (s : string) : string :=
  match s with
  | EmptyString => EmptyString
  | String c s' =>
      match trimEnd s' with
      | EmptyString => if is_white_space c then EmptyString else String c EmptyString
      | r => String c r
      end
  end.

(** [s.trim()] *)
Definition trim (s : string) : string := trimEnd (trimStart s).

(** The lower-case mapping of a code unit below 256: A to Z, and the
    capital letters U+00C0 to U+00DE but the multiplication sign U+00D7,
    move up by 32. *)
Definition toLowerCase_ascii (c : ascii) : ascii :=
  let n := N_of_ascii c in
  if ((65 <=? n) && (n <=? 90) ||
      (192 <=? n) && (n <=? 222) && negb (n =? 215))%N
  then ascii_of_N (n + 32)
  else c.

(** [s.toLowerCase()] *)
Fixpoint toLowerCase (s : string) : string :=
  match s with
  | EmptyString => EmptyString
  | String c s' => String (toLowerCase_ascii c) (toLowerCase s')
  end.

(** [s.includes(search)]: [search] occurs in [s] at some position. *)
Fixpoint includes (s search : string) : bool :=
  String.prefix search s ||
  match s with
  | EmptyString => false
  | String _ s' => includes s' search
  end.

(** ** The tasks page: state *)

(** [Pick<Task, "priority" | "status">] *)
Module Draft.
Record t : Type := mk {
  priority : string;
  status : string;
}.
End Draft.

Inductive ToastType : Type := success | error | info.

(** The [useState] cells of [TasksPage]. *)
Module ViewState.

Record t : Type := mk {
  tasks : list Task.t;
  drafts : gmap string Draft.t;
  loading : bool;
  err : string;
  toast : option (ToastType * string);
  isAddOpen : bool;
  newTitle : string;
  newPriority : string;
  newStatus : string;
  q : string;
  priorityFilter : string;
  statusFilter : string;
  confirmOpen : bool;
  pendingDeleteId : option string;
}.


(** The initial values passed to [useState]. *)
Definition initial : t :=
  {| tasks := []; drafts := ∅; loading := true; err := "";
     toast := None; isAddOpen := false;
     newTitle := ""; newPriority := "Low"; newStatus := "open";
     q := ""; priorityFilter := "All"; statusFilter := "All";
     confirmOpen := false; pendingDeleteId := None |}.
End ViewState.

Section Setters.
Import ViewState.

Definition setTasks (v : list Task.t) (s : ViewState.t) : ViewState.t :=
  ViewState.mk v (drafts s) (loading s) (err s) (toast s) (isAddOpen s) (newTitle s) (newPriority s) (newStatus s) (q s) (priorityFilter s) (statusFilter s) (confirmOpen s) (pendingDeleteId s).

Definition setDrafts (v : gmap string Draft.t) (s : ViewState.t) : ViewState.t :=
  ViewState.mk (tasks s) v (loading s) (err s) (toast s) (isAddOpen s) (newTitle s) (newPriority s) (newStatus s) (q s) (priorityFilter s) (statusFilter s) (confirmOpen s) (pendingDeleteId s).

Definition setLoading (v : bool) (s : ViewState.t) : ViewState.t :=
  ViewState.mk (tasks s) (drafts s) v (err s) (toast s) (isAddOpen s) (newTitle s) (newPriority s) (newStatus s) (q s) (priorityFilter s) (statusFilter s) (confirmOpen s) (pendingDeleteId s).

Definition setErr (v : string) (s : ViewState.t) : ViewState.t :=
  ViewState.mk (tasks s) (drafts s) (loading s) v (toast s) (isAddOpen s) (newTitle s) (newPriority s) (newStatus s) (q s) (priorityFilter s) (statusFilter s) (confirmOpen s) (pendingDeleteId s).

Definition setToast (v : option (ToastType * string)) (s : ViewState.t) : ViewState.t :=
  ViewState.mk (tasks s) (drafts s) (loading s) (err s) v (isAddOpen s) (newTitle s) (newPriority s) (newStatus s) (q s) (priorityFilter s) (statusFilter s) (confirmOpen s) (pendingDeleteId s).

Definition setIsAddOpen (v : bool) (s : ViewState.t) : ViewState.t :=
  ViewState.mk (tasks s) (drafts s) (loading s) (err s) (toast s) v (newTitle s) (newPriority s) (newStatus s) (q s) (priorityFilter s) (statusFilter s) (confirmOpen s) (pendingDeleteId s).

Definition setNewTitle (v : string) (s : ViewState.t) : ViewState.t :=
  ViewState.mk (tasks s) (drafts s) (loading s) (err s) (toast s) (isAddOpen s) v (newPriority s) (newStatus s) (q s) (priorityFilter s) (statusFilter s) (confirmOpen s) (pendingDeleteId s).

Definition setNewPriority (v : string) (s : ViewState.t) : ViewState.t :=
  ViewState.mk (tasks s) (drafts s) (loading s) (err s) (toast s) (isAddOpen s) (newTitle s) v (newStatus s) (q s) (priorityFilter s) (statusFilter s) (confirmOpen s) (pendingDeleteId s).

Definition setNewStatus (v : string) (s : ViewState.t) : ViewState.t :=
  ViewState.mk (tasks s) (drafts s) (loading s) (err s) (toast s) (isAddOpen s) (newTitle s) (newPriority s) v (q s) (priorityFilter s) (statusFilter s) (confirmOpen s) (pendingDeleteId s).

Definition setQ (v : string) (s : ViewState.t) : ViewState.t :=
  ViewState.mk (tasks s) (drafts s) (loading s) (err s) (toast s) (isAddOpen s) (newTitle s) (newPriority s) (newStatus s) v (priorityFilter s) (statusFilter s) (confirmOpen s) (pendingDeleteId s).

Definition setPriorityFilter (v : string) (s : ViewState.t) : ViewState.t :=
  ViewState.mk (tasks s) (drafts s) (loading s) (err s) (toast s) (isAddOpen s) (newTitle s) (newPriority s) (newStatus s) (q s) v (statusFilter s) (confirmOpen s) (pendingDeleteId s).

Definition setStatusFilter (v : string) (s : ViewState.t) : ViewState.t :=
  ViewState.mk (tasks s) (drafts s) (loading s) (err s) (toast s) (isAddOpen s) (newTitle s) (newPriority s) (newStatus s) (q s) (priorityFilter s) v (confirmOpen s) (pendingDeleteId s).

Definition setConfirmOpen (v : bool) (s : ViewState.t) : ViewState.t :=
  ViewState.mk (tasks s) (drafts s) (loading s) (err s) (toast s) (isAddOpen s) (newTitle s) (newPriority s) (newStatus s) (q s) (priorityFilter s) (statusFilter s) v (pendingDeleteId s).

Definition setPendingDeleteId (v : option string) (s : ViewState.t) : ViewState.t :=
  ViewState.mk (tasks s) (drafts s) (loading s) (err s) (toast s) (isAddOpen s) (newTitle s) (newPriority s) (newStatus s) (q s) (priorityFilter s) (statusFilter s) (confirmOpen s) v.

End Setters.

(** ** The tasks page: handlers *)

(** How a piece of handler code completes: normally, by a throw, or, when
    data received breaks the TypeScript annotation the code relies on,
    outside the typed program ([Untyped]). The state is the one the
    [useState] setters have produced so far. *)
Inductive Outcome (A : Type) : Type :=
| Normal (a : A) (s : ViewState.t)
| Abrupt (e : Thrown) (s : ViewState.t)
| Untyped.
Arguments Normal {A} a s.
Arguments Abrupt {A} e s.
Arguments Untyped {A}.

(** Code of the component: it runs from a state of the cells and may await
    exchanges. *)
Definition Action (A : Type) : Type := ViewState.t → Await (Outcome A).

#[global] Instance Action_mret : MRet Action := λ A a s, Done (Normal a s).
#[global] Instance Action_mbind : MBind Action := λ A B f m s,
  Await_bind (λ o, match o with
                   | Normal a s' => f a s'
                   | Abrupt e s' => Done (Abrupt e s')
                   | Untyped => Done Untyped
                   end) (m s).

(** A call of a [useState] setter, [setX(v)] or [setX(prev => ...)]. *)
Definition modify (f : ViewState.t → ViewState.t) : Action unit :=
  λ s, Done (Normal () (f s)).

(** [throw e] *)
Definition throw {A : Type} (e : Thrown) : Action A :=
  λ s, Done (Abrupt e s).

(** [await m] *)
Definition await {A : Type} (m : Async A) : Action A :=
  λ s, Await_bind (λ r, match r with
                        | Fulfilled a => Done (Normal a s)
                        | Rejected e => Done (Abrupt e s)
                        end) m.

(** [try { m } catch (e) { h e }] *)
Definition try_catch {A : Type} (m : Action A) (h : Thrown → Action A) : Action A :=
  λ s, Await_bind (λ o, match o with
                        | Abrupt e s' => h e s'
                        | _ => Done o
                        end) (m s).

(** [try { m } finally { fin }]: [fin] runs after [m] however it completes,
    and the completion of [m] stands unless [fin] throws. *)
Definition try_finally {A : Type} (m : Action A) (fin : Action unit) : Action A :=
  λ s, Await_bind (λ o, match o with
                        | Normal a s' => (fin;; mret a) s'
                        | Abrupt e s' => (fin;; throw e) s'
                        | Untyped => Done Untyped
                        end) (m s).

(** [new Error(message)] *)
Definition new_Error (message : string) : Thrown :=
  ThrownError {| err_name := "Error"; err_message := message |}.

(** [e instanceof Error]: [ApiError] extends [Error], and the errors of the
    host are [Error] objects. *)
Definition instanceof_Error (e : Thrown) : bool :=
  match e with
  | ThrownApiError _ => true
  | ThrownError _ => true
  end.

(** [e.message] *)
Definition Thrown_message (e : Thrown) : string :=
  match e with
  | ThrownApiError a => ApiError.message a
  | ThrownError j => err_message j
  end.

(** The value of an own property of an object (an object has no two
    properties of one key). *)
Definition js_get (key : string) (props : list (string * JsValue)) : option JsValue :=
  snd <$> List.find (λ kv, String.eqb (fst kv) key) props.

Definition as_string (v : JsValue) : option string :=
  match v with
  | JString s => Some s
  | _ => None
  end.

(** A value that has the type [Task]: an object whose [id], [title],
    [priority] and [status] are strings. *)
Definition as_Task (v : JsValue) : option Task.t :=
  match v with
  | JObject props =>
      id ← js_get "id" props ≫= as_string;
      title ← js_get "title" props ≫= as_string;
      priority ← js_get "priority" props ≫= as_string;
      status ← js_get "status" props ≫= as_string;
      Some (Task.mk id title priority status)
  | _ => None
  end.

(** A value that has the type [Task[]]. *)
Definition as_Tasks (v : JsValue) : option (list Task.t) :=
  match v with
  | JArray items => mapM as_Task items
  | _ => None
  end.

Definition API : string := "http://localhost:3001/tasks".

Inductive DraftField : Type := field_priority | field_status.

(** [{ ...d, [field]: value }] *)
Definition Draft_with (d : Draft.t) (field : DraftField) (value : string) : Draft.t :=
  match field with
  | field_priority => {| Draft.priority := value; Draft.status := Draft.status d |}
  | field_status => {| Draft.priority := Draft.priority d; Draft.status := value |}
  end.

(** [{ priority: t.priority, status: t.status }] *)
Definition Draft_of (t : Task.t) : Draft.t :=
  {| Draft.priority := Task.priority t; Draft.status := Task.status t |}.

Section View.
Context `{Platform}.
Import ViewState.

(** [showToast(type, message)]. The timer it starts closes the toast later
    ([ToastClosed]). *)
Definition showToast (type : ToastType) (message : string) : Action unit :=
  modify (setToast (Some (type, message))).

(** [const data: Task[] = await res.json()] *)
Definition res_json_Tasks (res : Response.t) : Action (list Task.t) :=
  match JSON_parse (Response.text res) with
  | Throws e => throw (ThrownError e)
  | Returns v =>
      match as_Tasks v with
      | Some data => mret data
      | None => λ _, Done Untyped
      end
  end.

Definition fetchTasks : Action unit :=
  try_finally
    (try_catch
       (modify (setLoading true);;
        modify (setErr "");;
        res ← await (fetch API
          {| RequestInit.method := None;
             RequestInit.cache := Some cache_no_store;
             RequestInit.headers := None;
             RequestInit.body := None |});
        (if negb (Response.ok res)
         then throw (new_Error ("HTTP " +:+ pretty (Response.status res)))
         else mret ());;
        data ← res_json_Tasks res;
        modify (setTasks data);;
        let d := foldl (λ d t, <[Task.id t := Draft_of t]> d) ∅ data in
        modify (setDrafts d))
       (λ e,
        let msg := if instanceof_Error e then Thrown_message e else "Failed to fetch" in
        modify (setErr msg);;
        showToast error msg))
    (modify (setLoading false)).

(** The handlers are closures of one render: what they read of the cells is
    the state [view] of that render, what they set goes to the cells. *)
Definition addTask (view : ViewState.t) : Action unit :=
  if negb (truthy_string (trim (newTitle view))) then
    showToast error "Title is required"
  else
    try_catch
      (modify (setErr "");;
       res ← await (fetch API
         {| RequestInit.method := Some POST;
            RequestInit.cache := None;
            RequestInit.headers := Some {[ "Content-Type" := "application/json" ]};
            RequestInit.body :=
              JSON_stringify
                (JObject [("title", JString (newTitle view));
                          ("priority", JString (newPriority view));
                          ("status", JString (newStatus view))]) |});
       (if negb (Response.ok res)
        then throw (new_Error ("POST failed: HTTP " +:+ pretty (Response.status res)))
        else mret ());;
       modify (setNewTitle "");;
       modify (setNewPriority "Low");;
       modify (setNewStatus "open");;
       modify (setIsAddOpen false);;
       showToast success "Task added successfully";;
       fetchTasks)
      (λ e,
       let msg := if instanceof_Error e then Thrown_message e else "Failed to create task" in
       modify (setErr msg);;
       showToast error msg).

Definition onDraftChange (id : string) (field : DraftField) (value : string) : Action unit :=
  modify (λ s,
    let prev := drafts s in
    setDrafts
      (<[id := Draft_with
                 (default {| Draft.priority := "Low"; Draft.status := "open" |} (prev !! id))
                 field value]> prev) s).

Definition saveTask (view : ViewState.t) (id : string) : Action unit :=
  match List.find (λ t, String.eqb (Task.id t) id) (tasks view), drafts view !! id with
  | Some current, Some draft =>
      let updates :=
        {| TaskUpdates.priority :=
             if negb (String.eqb (Draft.priority draft) (Task.priority current))
             then Some (Draft.priority draft) else None;
           TaskUpdates.status :=
             if negb (String.eqb (Draft.status draft) (Task.status current))
             then Some (Draft.status draft) else None |} in
      if (length (TaskUpdates.keys updates) =? 0)%nat then
        showToast info "No changes to save"
      else
        try_catch
          (modify (setErr "");;
           res ← await (fetch (API +:+ "/" +:+ id)
             {| RequestInit.method := Some PATCH;
                RequestInit.cache := None;
                RequestInit.headers := Some {[ "Content-Type" := "application/json" ]};
                RequestInit.body := JSON_stringify (TaskUpdates.to_js updates) |});
           (if negb (Response.ok res)
            then throw (new_Error ("PATCH failed: HTTP " +:+ pretty (Response.status res)))
            else mret ());;
           showToast success "Task updated successfully";;
           fetchTasks)
          (λ e,
           let msg := if instanceof_Error e then Thrown_message e else "Failed to update task" in
           modify (setErr msg);;
           showToast error msg)
  | _, _ => mret ()
  end.

Definition resetRow (view : ViewState.t) (id : string) : Action unit :=
  match List.find (λ t, String.eqb (Task.id t) id) (tasks view) with
  | None => mret ()
  | Some current =>
      modify (λ s, setDrafts (<[id := Draft_of current]> (drafts s)) s);;
      showToast info "Changes reset"
  end.

Definition requestDelete (id : string) : Action unit :=
  modify (setPendingDeleteId (Some id));;
  modify (setConfirmOpen true).

Definition cancelDelete : Action unit :=
  modify (setConfirmOpen false);;
  modify (setPendingDeleteId None).

Definition confirmDelete (view : ViewState.t) : Action unit :=
  match pendingDeleteId view with
  | None => mret ()
  | Some pending =>
      if negb (truthy_string pending) then mret ()
      else
        try_catch
          (modify (setErr "");;
           res ← await (fetch (API +:+ "/" +:+ pending)
             {| RequestInit.method := Some DELETE;
                RequestInit.cache := None;
                RequestInit.headers := None;
                RequestInit.body := None |});
           (if negb (Response.ok res)
            then throw (new_Error ("DELETE failed: HTTP " +:+ pretty (Response.status res)))
            else mret ());;
           showToast success "Task deleted successfully";;
           modify (setConfirmOpen false);;
           modify (setPendingDeleteId None);;
           fetchTasks)
          (λ e,
           let msg := if instanceof_Error e then Thrown_message e else "Failed to delete task" in
           modify (setErr msg);;
           showToast error msg)
  end.

Definition filteredTasks (view : ViewState.t) : list Task.t :=
  let query := toLowerCase (trim (q view)) in
  List.filter
    (λ t,
     let matchesQuery :=
       if truthy_string query then includes (toLowerCase (Task.title t)) query else true in
     let matchesPriority :=
       if String.eqb (priorityFilter view) "All" then true
       else String.eqb (Task.priority t) (priorityFilter view) in
     let matchesStatus :=
       if String.eqb (statusFilter view) "All" then true
       else String.eqb (Task.status t) (statusFilter view) in
     matchesQuery && matchesPriority && matchesStatus)
    (tasks view).

Definition resetFilters : Action unit :=
  modify (setQ "");;
  modify (setPriorityFilter "All");;
  modify (setStatusFilter "All");;
  showToast info "Filters reset".

Definition openAddPopup : Action unit :=
  modify (setNewTitle "");;
  modify (setNewPriority "Low");;
  modify (setNewStatus "open");;
  modify (setIsAddOpen true).

(** What can happen to the mounted component: the effect of the first
    render, the events of its elements, and the timer of a toast. *)
Inductive Event : Type :=
| Mounted
| AddSubmitted
| DraftChanged (id : string) (field : DraftField) (value : string)
| SaveClicked (id : string)
| ResetClicked (id : string)
| DeleteClicked (id : string)
| DeleteCancelled
| DeleteConfirmed
| FiltersReset
| AddOpened
| AddClosed
| ToastClosed
| NewTitleChanged (value : string)
| NewPriorityChanged (value : string)
| NewStatusChanged (value : string)
| QueryChanged (value : string)
| PriorityFilterChanged (value : string)
| StatusFilterChanged (value : string).

(** The code an event runs, in the render whose state is [view]. *)
Definition handle (view : ViewState.t) (ev : Event) : Action unit :=
  match ev with
  | Mounted => fetchTasks
  | AddSubmitted => addTask view
  | DraftChanged id field value => onDraftChange id field value
  | SaveClicked id => saveTask view id
  | ResetClicked id => resetRow view id
  | DeleteClicked id => requestDelete id
  | DeleteCancelled => cancelDelete
  | DeleteConfirmed => confirmDelete view
  | FiltersReset => resetFilters
  | AddOpened => openAddPopup
  | AddClosed => modify (setIsAddOpen false)
  | ToastClosed => modify (setToast None)
  | NewTitleChanged value => modify (setNewTitle value)
  | NewPriorityChanged value => modify (setNewPriority value)
  | NewStatusChanged value => modify (setNewStatus value)
  | QueryChanged value => modify (setQ value)
  | PriorityFilterChanged value => modify (setPriorityFilter value)
  | StatusFilterChanged value => modify (setStatusFilter value)
  end.

(** One event handled to its end against the remote side [net]: the state
    of the cells after it, unless the run left the typed program. *)
Definition dispatch {W : Type}
    (net : W → string → RequestInit.t → FetchOutcome * W)
    (w : W) (s : ViewState.t) (ev : Event) : option (ViewState.t * W) :=
  match run net w (handle s ev s) with
  | (Normal _ s', w') => Some (s', w')
  | (Abrupt _ s', w') => Some (s', w')
  | (Untyped, _) => None
  end.

Fixpoint dispatch_all {W : Type}
    (net : W → string → RequestInit.t → FetchOutcome * W)
    (w : W) (s : ViewState.t) (evs : list Event) : option (ViewState.t * W) :=
  match evs with
  | [] => Some (s, w)
  | ev :: evs' =>
      match dispatch net w s ev with
      | Some (s', w') => dispatch_all net w' s' evs'
      | None => None
      end
  end.
End View.

(** ** The tasks page: what a render derives *)

(** [set.add(x)] on the values of a [Set] of strings in their order of
    insertion: a value that is there is not added again. *)
Definition Set_add (set : list string) (x : string) : list string :=
  if existsb (String.eqb x) set then set else set ++ [x].

(** [Array.from(new Set(items))] *)
Definition Array_from_new_Set (items : list string) : list string :=
  foldl Set_add [] items.

(** The options of the priority filter. *)
Definition priorities (view : ViewState.t) : list string :=
  "All" :: Array_from_new_Set (List.map Task.priority (ViewState.tasks view)).

(** The options of the status filter. *)
Definition statuses (view : ViewState.t) : list string :=
  "All" :: Array_from_new_Set (List.map Task.status (ViewState.tasks view)).

(** The draft a row shows:
    [drafts[t.id] || { priority: t.priority, status: t.status }]. *)
Definition row_draft (view : ViewState.t) (t : Task.t) : Draft.t :=
  default (Draft_of t) (ViewState.drafts view !! Task.id t).

(** The flag [changed] of a row, which enables its Save and Reset
    buttons. *)
Definition row_changed (view : ViewState.t) (t : Task.t) : bool :=
  let d := row_draft view t in
  negb (String.eqb (Draft.priority d) (Task.priority t)) ||
  negb (String.eqb (Draft.status d) (Task.status t)).

(** ** A reference instance of the JSON built-ins

    An executable rendering of [JSON.parse] and [JSON.stringify] as
    ECMA-262 defines them, on the values and strings of this embedding. The
    properties of the program below hold for every [Platform]; this instance
    serves to run the program on concrete texts. An escape [\uXXXX] of a
    code unit above 255 has no counterpart in the strings of the embedding
    and is not read. *)

Module ReferenceJSON.

(** *** Numbers *)

(** The binary64 datum nearest to [d * 10^x] for [d >= 0], ties to even,
    with the sign [neg]. *)
Definition decimal_to_binary64 (neg : bool) (d x : Z) : spec_float :=
  if (d =? 0)%Z then S754_zero neg
  else
    let magnitude := (Z.of_nat (String.length (pretty (Z.to_N d))) + x)%Z in
    if (310 <? magnitude)%Z then S754_infinity neg
    else if (magnitude <? -330)%Z then S754_zero neg
    else
      let signed (z : Z) : Z := if neg then (- z)%Z else z in
      if (0 <=? x)%Z then binary_normalize 53 1024 (signed (d * 10 ^ x)%Z) 0 neg
      else
        let D := (10 ^ (- x))%Z in
        let k := (64 + Z.log2_up D)%Z in
        let q := ((d * 2 ^ k) / D)%Z in
        let sticky := if (((d * 2 ^ k) mod D) =? 0)%Z then 0%Z else 1%Z in
        binary_normalize 53 1024 (signed (2 * q + sticky)%Z) (- k - 1) neg.

(** For the positive datum [m * 2^e]: the digits [s] and the exponent [n] of
    its shortest decimal that reads back as the same datum, so that the
    datum prints as [0.s * 10^n]. *)
Definition binary64_to_decimal (m : positive) (e : Z) : Z * Z :=
  let x := S754_finite false m e in
  let P := if (0 <=? e)%Z then (Z.pos m * 2 ^ e)%Z else Z.pos m in
  let Q := if (0 <=? e)%Z then 1%Z else (2 ^ (- e))%Z in
  let digits (z : Z) : Z := Z.of_nat (String.length (pretty (Z.to_N z))) in
  let c := (digits P - digits Q)%Z in
  let n := if (if (0 <=? c)%Z then Q * 10 ^ c <=? P else Q <=? P * 10 ^ (- c))%Z
           then (c + 1)%Z else c in
  let candidate (k : Z) : option (Z * Z) :=
    let num := if (0 <=? k - n)%Z then (P * 10 ^ (k - n))%Z else P in
    let den := if (0 <=? k - n)%Z then Q else (Q * 10 ^ (n - k))%Z in
    let lo := (num / den)%Z in
    let hi := (lo + 1)%Z in
    let reads_back (s : Z) : bool := SFeqb (decimal_to_binary64 false s (n - k)) x in
    let twice_rest := (2 * (num - lo * den))%Z in
    let lo_is_nearer := (twice_rest <? den)%Z || ((twice_rest =? den)%Z && Z.even lo) in
    let pick (s : Z) : Z * Z :=
      if (s =? 10 ^ k)%Z then (10 ^ (k - 1), n + 1)%Z else (s, n) in
    match reads_back lo, reads_back hi with
    | true, true => Some (pick (if lo_is_nearer then lo else hi))
    | true, false => Some (pick lo)
    | false, true => Some (pick hi)
    | false, false => None
    end in
  let fix search (fuel : nat) (k : Z) : Z * Z :=
    match fuel with
    | O => (Z.pos m, 0%Z)
    | S fuel' =>
        match candidate k with
        | Some r => r
        | None => search fuel' (k + 1)%Z
        end
    end in
  search 17%nat 1%Z.

Fixpoint zeros (n : nat) : string :=
  match n with
  | O => ""
  | S n' => String "0" (zeros n')
  end.

(** [Number::toString] in radix 10. *)
Definition Number_toString (x : spec_float) : string :=
  match x with
  | S754_nan => "NaN"
  | S754_zero _ => "0"
  | S754_infinity neg => (if neg then "-" else "") +:+ "Infinity"
  | S754_finite neg m e =>
      let '(s, n) := binary64_to_decimal m e in
      let digits := pretty (Z.to_N s) in
      let k := Z.of_nat (String.length digits) in
      (if neg then "-" else "") +:+
      (if ((k <=? n) && (n <=? 21))%Z then
         digits +:+ zeros (Z.to_nat (n - k))
       else if ((0 <? n) && (n <=? 21))%Z then
         substring 0 (Z.to_nat n) digits +:+ "." +:+
         substring (Z.to_nat n) (Z.to_nat (k - n)) digits
       else if ((-6 <? n) && (n <=? 0))%Z then
         "0." +:+ zeros (Z.to_nat (- n)) +:+ digits
       else
         let exponent := (n - 1)%Z in
         (if (k =? 1)%Z then digits
          else substring 0 1 digits +:+ "." +:+ substring 1 (Z.to_nat (k - 1)) digits)
         +:+ "e" +:+ (if (exponent <? 0)%Z then "-" else "+")
         +:+ pretty (Z.to_N (Z.abs exponent)))
  end.

(** *** JSON.stringify *)

Definition hex_digit (n : N) : ascii :=
  ascii_of_N (if (n <? 10)%N then 48 + n else 87 + n).

(** One code unit inside a quoted JSON string. *)
Definition quote_ascii (c : ascii) : string :=
  let n := N_of_ascii c in
  if (n =? 34)%N then String (ascii_of_N 92) (String (ascii_of_N 34) "")
  else if (n =? 92)%N then "\\"
  else if (n =? 8)%N then "\b"
  else if (n =? 9)%N then "\t"
  else if (n =? 10)%N then "\n"
  else if (n =? 12)%N then "\f"
  else if (n =? 13)%N then "\r"
  else if (n <? 32)%N then
    "\u00" +:+ String (hex_digit (n / 16)) (String (hex_digit (n mod 16)) "")
  else String c "".

Fixpoint quote_chars (s : string) : string :=
  match s with
  | EmptyString => ""
  | String c s' => quote_ascii c +:+ quote_chars s'
  end.

(** [QuoteJSONString] *)
Definition quote (s : string) : string :=
  String (ascii_of_N 34) (quote_chars s) +:+ String (ascii_of_N 34) "".

(** [JSON.stringify(v)] with one argument: [None] is [undefined]. *)
Fixpoint stringify (v : JsValue) : option string :=
  match v with
  | JUndefined => None
  | JNull => Some "null"
  | JBool b => Some (if b then "true" else "false")
  | JNumber x =>
      Some match x with
           | S754_finite _ _ _ | S754_zero _ => Number_toString x
           | _ => "null"
           end
  | JString s => Some (quote s)
  | JArray items =>
      Some ("[" +:+
            String.concat "," (List.map (λ x, default "null" (stringify x)) items)
            +:+ "]")
  | JObject props =>
      Some ("{" +:+
            String.concat ","
              (omap (λ kv, match kv with
                           | (key, x) => (λ text, quote key +:+ ":" +:+ text) <$> stringify x
                           end) props)
            +:+ "}")
  end.

(** *** JSON.parse *)

(** JSON white space: TAB, LF, CR and SP. *)
Definition is_json_space (c : ascii) : bool :=
  let n := N_of_ascii c in
  ((n =? 9) || (n =? 10) || (n =? 13) || (n =? 32))%N.

Fixpoint skip_space (s : string) : string :=
  match s with
  | String c s' => if is_json_space c then skip_space s' else s
  | EmptyString => s
  end.

Definition digit_value (c : ascii) : option Z :=
  let n := N_of_ascii c in
  if ((48 <=? n) && (n <=? 57))%N then Some (Z.of_N (n - 48)) else None.

Definition hex_value (c : ascii) : option N :=
  let n := N_of_ascii c in
  if ((48 <=? n) && (n <=? 57))%N then Some (n - 48)%N
  else if ((65 <=? n) && (n <=? 70))%N then Some (n - 55)%N
  else if ((97 <=? n) && (n <=? 102))%N then Some (n - 87)%N
  else None.

(** The digits at the head of [s], read on top of [acc]: the number, how
    many digits were read, and the rest. *)
Fixpoint read_digits (s : string) (acc : Z) (count : Z) : Z * Z * string :=
  match s with
  | String c s' =>
      match digit_value c with
      | Some d => read_digits s' (10 * acc + d)%Z (count + 1)%Z
      | None => (acc, count, s)
      end
  | EmptyString => (acc, count, s)
  end.

(** A JSON number at the head of [s]. *)
Definition read_number (s : string) : option (spec_float * string) :=
  let '(neg, s1) :=
    match s with
    | String c s' => if (N_of_ascii c =? 45)%N then (true, s') else (false, s)
    | EmptyString => (false, s)
    end in
  '(int, s2) ←
    match s1 with
    | String c s' =>
        if (N_of_ascii c =? 48)%N then Some (0%Z, s')
        else
          let '(int, count, rest) := read_digits s1 0 0 in
          if (count =? 0)%Z then None else Some (int, rest)
    | EmptyString => None
    end;
  '(mantissa, scale, s3) ←
    match s2 with
    | String c s' =>
        if (N_of_ascii c =? 46)%N then
          let '(m, count, rest) := read_digits s' int 0 in
          if (count =? 0)%Z then None else Some (m, count, rest)
        else Some (int, 0%Z, s2)
    | EmptyString => Some (int, 0%Z, s2)
    end;
  '(exponent, s4) ←
    match s3 with
    | String c s' =>
        if (N_of_ascii c =? 101)%N || (N_of_ascii c =? 69)%N then
          let '(minus, digits) :=
            match s' with
            | String c' t =>
                if (N_of_ascii c' =? 45)%N then (true, t)
                else if (N_of_ascii c' =? 43)%N then (false, t)
                else (false, s')
            | EmptyString => (false, s')
            end in
          let '(e, count, rest) := read_digits digits 0 0 in
          if (count =? 0)%Z then None
          else Some (if minus then (- e)%Z else e, rest)
        else Some (0%Z, s3)
    | EmptyString => Some (0%Z, s3)
    end;
  Some (decimal_to_binary64 neg mantissa (exponent - scale), s4).

(** The code unit a one-letter escape stands for. *)
Definition escape_unit (e : ascii) : option ascii :=
  let n := N_of_ascii e in
  if ((n =? 34) || (n =? 92) || (n =? 47))%N then Some e
  else if (n =? 98)%N then Some (ascii_of_N 8)
  else if (n =? 102)%N then Some (ascii_of_N 12)
  else if (n =? 110)%N then Some (ascii_of_N 10)
  else if (n =? 114)%N then Some (ascii_of_N 13)
  else if (n =? 116)%N then Some (ascii_of_N 9)
  else None.

(** The characters of a JSON string after its opening quote, up to the
    closing quote, and the rest. *)
Fixpoint read_string (s : string) : option (string * string) :=
  match s with
  | EmptyString => None
  | String c s' =>
      let n := N_of_ascii c in
      if (n =? 34)%N then Some ("", s')
      else if (n <? 32)%N then None
      else if (n =? 92)%N then
        match s' with
        | EmptyString => None
        | String e s'' =>
            if (N_of_ascii e =? 117)%N then
              match s'' with
              | String a (String b (String c' (String d rest))) =>
                  ha ← hex_value a;
                  hb ← hex_value b;
                  hc ← hex_value c';
                  hd ← hex_value d;
                  let unit := (((ha * 16 + hb) * 16 + hc) * 16 + hd)%N in
                  if (unit <? 256)%N then
                    '(text, rest') ← read_string rest;
                    Some (String (ascii_of_N unit) text, rest')
                  else None
              | _ => None
              end
            else
              u ← escape_unit e;
              '(text, rest) ← read_string s'';
              Some (String u text, rest)
        end
      else
        '(text, rest) ← read_string s';
        Some (String c text, rest)
  end.

(** The array index a property key is, if it is one: a canonical decimal
    below 2^32 - 1. *)
Definition array_index (key : string) : option N :=
  let '(n, _, rest) := read_digits key 0 0 in
  if String.eqb rest "" && String.eqb (pretty (Z.to_N n)) key && (n <? 4294967295)%Z
  then Some (Z.to_N n) else None.

Fixpoint replace_property (key : string) (v : JsValue)
    (props : list (string * JsValue)) : option (list (string * JsValue)) :=
  match props with
  | [] => None
  | (k, x) :: rest =>
      if String.eqb k key then Some ((k, v) :: rest)
      else cons (k, x) <$> replace_property key v rest
  end.

Fixpoint insert_index (i : N) (key : string) (v : JsValue)
    (props : list (string * JsValue)) : list (string * JsValue) :=
  match props with
  | [] => [(key, v)]
  | (k, x) :: rest =>
      match array_index k with
      | Some j => if (j <? i)%N then (k, x) :: insert_index i key v rest
                  else (key, v) :: props
      | None => (key, v) :: props
      end
  end.

(** [CreateDataProperty] on the properties of an ordinary object, in their
    order of enumeration: a key that is there keeps its place, a new array
    index goes among the indices in ascending order, any other new key goes
    last. *)
Definition define_property (key : string) (v : JsValue)
    (props : list (string * JsValue)) : list (string * JsValue) :=
  match replace_property key v props with
  | Some props' => props'
  | None =>
      match array_index key with
      | Some i => insert_index i key v props
      | None => props ++ [(key, v)]
      end
  end.

(** [s] without its prefix [p], if it starts with [p]. *)
Fixpoint strip_prefix (p s : string) : option string :=
  match p, s with
  | EmptyString, _ => Some s
  | String a p', String b s' => if Ascii.eqb a b then strip_prefix p' s' else None
  | String _ _, EmptyString => None
  end.

(** A JSON value at the head of [s], after white space, and the rest. *)
Fixpoint read_value (fuel : nat) (s : string) : option (JsValue * string) :=
  match fuel with
  | O => None
  | S fuel' =>
      match skip_space s with
      | EmptyString => None
      | String c rest as s0 =>
          let n := N_of_ascii c in
          if (n =? 123)%N then
            match skip_space rest with
            | String c' rest' as s1 =>
                if (N_of_ascii c' =? 125)%N then Some (JObject [], rest')
                else read_members fuel' s1 []
            | EmptyString => None
            end
          else if (n =? 91)%N then
            match skip_space rest with
            | String c' rest' as s1 =>
                if (N_of_ascii c' =? 93)%N then Some (JArray [], rest')
                else read_items fuel' s1 []
            | EmptyString => None
            end
          else if (n =? 34)%N then
            '(text, rest') ← read_string rest;
            Some (JString text, rest')
          else
            match strip_prefix "true" s0, strip_prefix "false" s0, strip_prefix "null" s0 with
            | Some rest', _, _ => Some (JBool true, rest')
            | _, Some rest', _ => Some (JBool false, rest')
            | _, _, Some rest' => Some (JNull, rest')
            | None, None, None =>
                '(x, rest') ← read_number s0;
                Some (JNumber x, rest')
            end
      end
  end
with read_items (fuel : nat) (s : string) (before : list JsValue)
    : option (JsValue * string) :=
  match fuel with
  | O => None
  | S fuel' =>
      '(v, rest) ← read_value fuel' s;
      match skip_space rest with
      | String c rest' =>
          if (N_of_ascii c =? 44)%N then read_items fuel' rest' (before ++ [v])
          else if (N_of_ascii c =? 93)%N then Some (JArray (before ++ [v]), rest')
          else None
      | EmptyString => None
      end
  end
with read_members (fuel : nat) (s : string) (before : list (string * JsValue))
    : option (JsValue * string) :=
  match fuel with
  | O => None
  | S fuel' =>
      match skip_space s with
      | String c rest =>
          if (N_of_ascii c =? 34)%N then
            '(key, rest1) ← read_string rest;
            match skip_space rest1 with
            | String c1 rest2 =>
                if (N_of_ascii c1 =? 58)%N then
                  '(v, rest3) ← read_value fuel' rest2;
                  let props := define_property key v before in
                  match skip_space rest3 with
                  | String c3 rest4 =>
                      if (N_of_ascii c3 =? 44)%N then read_members fuel' rest4 props
                      else if (N_of_ascii c3 =? 125)%N then Some (JObject props, rest4)
                      else None
                  | EmptyString => None
                  end
                else None
            | EmptyString => None
            end
          else None
      | EmptyString => None
      end
  end.

Definition SyntaxError : JsError :=
  {| err_name := "SyntaxError"; err_message := "The text is not valid JSON" |}.

(** [JSON.parse(text)] with one argument. *)
Definition parse (text : string) : Completion JsValue :=
  match read_value (2 * String.length text + 2) text with
  | Some (v, rest) =>
      match skip_space rest with
      | EmptyString => Returns v
      | String _ _ => Throws SyntaxError
      end
  | None => Throws SyntaxError
  end.

#[export] Instance platform : Platform :=
  {| JSON_parse := parse; JSON_stringify := stringify |}.

End ReferenceJSON.

(** ** Predicates over awaited computations *)

(** [post] holds of every result [m] can be done with, whatever the
    exchanges it awaits come out as within [pre]. *)
Fixpoint always {R : Type}
    (pre : string → RequestInit.t → FetchOutcome → Prop)
    (post : R → Prop) (m : Await R) : Prop :=
  match m with
  | Done r => post r
  | AwaitFetch url init k => ∀ o, pre url init o → always pre post (k o)
  end.


(** ** The words of the specification *)

(** A string contains another: the other occurs in it at some place. *)
Definition contains (s search : string) : Prop :=
  ∃ before after, s = before +:+ search +:+ after.

(** A string of white space only. *)
Definition all_white_space (s : string) : Prop :=
  ∀ c, c ∈ list_ascii_of_string s → is_white_space c = true.

(** A task passes the filters of the page: its title in lower case contains
    the trimmed query in lower case, and its priority and its status are the
    ones the filters ask for, a filter set to All asking for nothing. *)
Definition passes_filters (view : ViewState.t) (t : Task.t) : Prop :=
  contains (toLowerCase (Task.title t)) (toLowerCase (trim (ViewState.q view))) ∧
  (ViewState.priorityFilter view = "All" ∨
   Task.priority t = ViewState.priorityFilter view) ∧
  (ViewState.statusFilter view = "All" ∨
   Task.status t = ViewState.statusFilter view).

(** The same with the title as it is written. *)
Definition passes_filters_title_as_written (view : ViewState.t) (t : Task.t) : Prop :=
  contains (Task.title t) (toLowerCase (trim (ViewState.q view))) ∧
  (ViewState.priorityFilter view = "All" ∨
   Task.priority t = ViewState.priorityFilter view) ∧
  (ViewState.statusFilter view = "All" ∨
   Task.status t = ViewState.statusFilter view).

(** The changed subset of the priority and the status of a draft: each is
    there when it differs from the one of the task. *)
Definition changed_subset (current : Task.t) (draft : Draft.t) : TaskUpdates.t :=
  {| TaskUpdates.priority :=
       if decide (Draft.priority draft = Task.priority current)
       then None else Some (Draft.priority draft);
     TaskUpdates.status :=
       if decide (Draft.status draft = Task.status current)
       then None else Some (Draft.status draft) |}.

(** The draft state mirrors the tasks the page holds. *)
Definition mirrors (s : ViewState.t) : Prop :=
  ∀ t, t ∈ ViewState.tasks s →
       ViewState.drafts s !! Task.id t = Some (Draft_of t).

(** No two tasks of a list have the same id. *)
Definition distinct_ids (data : list Task.t) : Prop := NoDup (Task.id <$> data).

(** The remote side answers the retrieval of the list as the page expects:
    a body of an ok response that is JSON is a list of tasks with distinct
    ids. Nothing is asked of the other exchanges. *)
Definition lists_well_formed `{Platform}
    (url : string) (init : RequestInit.t) (o : FetchOutcome) : Prop :=
  url = API → RequestInit.method init = None →
  ∀ res v, o = Returns res → Response.ok res = true →
           JSON_parse (Response.text res) = Returns v →
           ∃ data, as_Tasks v = Some data ∧ distinct_ids data.

(** The event is an edit of a draft by the user. *)
Definition is_draft_edit (ev : Event) : bool :=
  match ev with
  | DraftChanged _ _ _ => true
  | _ => false
  end.

(** The state of the cells a handler is done with, if it stayed inside the
    typed program. *)
Definition final_state {A : Type} (o : Outcome A) : option ViewState.t :=
  match o with
  | Normal _ s => Some s
  | Abrupt _ s => Some s
  | Untyped => None
  end.

(** A handler is done inside the typed program with drafts that mirror the
    tasks. *)
Definition keeps_mirror (o : Outcome unit) : Prop :=
  ∃ s, final_state o = Some s ∧ mirrors s.

(** The page shows the error [message] and holds the tasks and drafts it
    held in [s]. *)
Definition shows_error (s s' : ViewState.t) (message : string) : Prop :=
  ViewState.tasks s' = ViewState.tasks s ∧
  ViewState.drafts s' = ViewState.drafts s ∧
  ViewState.err s' = message ∧
  ViewState.toast s' = Some (error, message).

(** The key of a field of a draft. *)
Definition DraftField_key (field : DraftField) : string :=
  match field with
  | field_priority => "priority"
  | field_status => "status"
  end.

(** The value a task has for a field of a draft. *)
Definition Task_field (t : Task.t) (field : DraftField) : string :=
  match field with
  | field_priority => Task.priority t
  | field_status => Task.status t
  end.

(** The retrieval of the list comes back with a response that is ok. *)
Definition list_retrieved (url : string) (init : RequestInit.t) (o : FetchOutcome) : Prop :=
  RequestInit.method init = None ∧ ∃ res, o = Returns res ∧ Response.ok res = true.

(** The retrieval of the list fails, and [message] is what the page shows
    for it: the message of the error [fetch] rejected with, the status of a
    response that is not ok, or the message of the error of [JSON.parse]. *)
Definition retrieval_fails `{Platform} (o : FetchOutcome) (message : string) : Prop :=
  match o with
  | Throws e => message = err_message e
  | Returns res =>
      if Response.ok res
      then ∃ e, JSON_parse (Response.text res) = Throws e ∧ message = err_message e
      else message = "HTTP " +:+ pretty (Response.status res)
  end.

(** The exchange of a POST, PATCH or DELETE fails, and [message] is what
    the page shows for it. *)
Definition mutation_fails (method : HttpMethod) (o : FetchOutcome) (message : string) : Prop :=
  match o with
  | Throws e => message = err_message e
  | Returns res =>
      Response.ok res = false ∧
      message = HttpMethod_string method +:+ " failed: HTTP " +:+ pretty (Response.status res)
  end.

(** A handler is done, and not by a throw. *)
Definition not_thrown {A : Type} (o : Outcome A) : Prop :=
  match o with
  | Abrupt _ _ => False
  | _ => True
  end.

(** ** Sample data *)

Module Sample.

Definition task_to_js (t : Task.t) : JsValue :=
  JObject [("id", JString (Task.id t)); ("title", JString (Task.title t));
           ("priority", JString (Task.priority t)); ("status", JString (Task.status t))].

(** The JSON text of a list of tasks. *)
Definition tasks_text (data : list Task.t) : string :=
  default "" (ReferenceJSON.stringify (JArray (task_to_js <$> data))).

Definition milk : Task.t :=
  {| Task.id := "1"; Task.title := "Buy Milk"; Task.priority := "Low"; Task.status := "open" |}.

Definition report : Task.t :=
  {| Task.id := "2"; Task.title := "Write report"; Task.priority := "High";
     Task.status := "In-Progress" |}.

(** A second task under the id of [milk]. *)
Definition milk_again : Task.t :=
  {| Task.id := "1"; Task.title := "Buy more milk"; Task.priority := "High";
     Task.status := "open" |}.

(** A submission of [milk] with a content type of the caller's own. *)
Definition plain_text_options : RequestOptions.t :=
  {| RequestOptions.method := Some POST;
     RequestOptions.body := Some (task_to_js milk);
     RequestOptions.headers := Some {[ "Content-Type" := "text/plain" ]};
     RequestOptions.cache := None |}.

(** A submission of the number 0. *)
Definition zero_options : RequestOptions.t :=
  {| RequestOptions.method := Some POST;
     RequestOptions.body := Some (JNumber (S754_zero false));
     RequestOptions.headers := None;
     RequestOptions.cache := None |}.

(** A remote side that answers every exchange with the list [milk],
    [report]. *)
Definition net (w : unit) (url : string) (init : RequestInit.t) : FetchOutcome * unit :=
  (Returns (Response.of_status 200 (tasks_text [milk; report])), w).

(** The response of that remote side. *)
Definition response : Response.t := Response.of_status 200 (tasks_text [milk; report]).

(** A response whose list has the id of [milk] twice. *)
Definition response_with_duplicate : Response.t :=
  Response.of_status 200 (tasks_text [milk; milk_again]).

(** A response that is not ok, with a body that is not JSON. *)
Definition not_found : Response.t := Response.of_status 404 "Not Found".

(** Events of a user who edits no draft. *)
Definition events : list Event :=
  [SaveClicked "1"; ResetClicked "2"; QueryChanged "milk";
   DeleteClicked "1"; DeleteConfirmed].

(** The page with the priority of [milk] edited. *)
Definition edited : ViewState.t :=
  setDrafts (<[ "2" := Draft_of report ]> (<[ "1" := Draft.mk "High" "open" ]> ∅))
    (setTasks [milk; report] (setLoading false ViewState.initial)).

(** The page asking whether to delete [milk]. *)
Definition deleting : ViewState.t :=
  setPendingDeleteId (Some "1") (setConfirmOpen true
    (setDrafts (<[ "2" := Draft_of report ]> (<[ "1" := Draft_of milk ]> ∅))
       (setTasks [milk; report] (setLoading false ViewState.initial)))).

(** A remote side that answers every exchange with 404. *)
Definition failing_net (w : unit) (url : string) (init : RequestInit.t)
    : FetchOutcome * unit :=
  (Returns not_found, w).

(** A response to a submission that went well. *)
Definition created : Response.t := Response.of_status 201 (tasks_text [report]).


(** The page with a title of white space typed in. *)
Definition typing_blank : ViewState.t :=
  setNewTitle "   " (setIsAddOpen true
    (setDrafts (<[ "2" := Draft_of report ]> (<[ "1" := Draft_of milk ]> ∅))
       (setTasks [milk; report] (setLoading false ViewState.initial)))).

(** The page with the title of a new task typed in. *)
Definition typing : ViewState.t :=
  setNewTitle " Call Bob " (setIsAddOpen true
    (setDrafts (<[ "2" := Draft_of report ]> (<[ "1" := Draft_of milk ]> ∅))
       (setTasks [milk; report] (setLoading false ViewState.initial)))).

(** The page after it has fetched [milk], [report]. *)
Definition loaded : ViewState.t :=
  setDrafts (<[ "2" := Draft_of report ]> (<[ "1" := Draft_of milk ]> ∅))
    (setTasks [milk; report] (setLoading false ViewState.initial)).

End Sample.
(** * Properties *)

(** ** Awaited computations *)

Lemma always_mono {R : Type} pre (post post' : R → Prop) (m : Await R) :
  (∀ r, post r → post' r) → always pre post m → always pre post' m.
Proof.
  intros Himp. induction m as [r|url init k IH]; simpl; [apply Himp|].
  intros Hk o Ho. apply IH, Hk, Ho.
Qed.

Lemma always_bind {R R' : Type} pre (post : R' → Prop) (f : R → Await R') (m : Await R) :
  always pre (λ r, always pre post (f r)) m → always pre post (Await_bind f m).
Proof.
  induction m as [r|url init k IH]; simpl; [done|].
  intros Hk o Ho. apply IH, Hk, Ho.
Qed.

Lemma always_run {W R : Type} pre (post : R → Prop)
    (net : W → string → RequestInit.t → FetchOutcome * W) (m : Await R) :
  (∀ w url init, pre url init (net w url init).1) →
  always pre post m → ∀ w, post (run net w m).1.
Proof.
  intros Hnet. induction m as [r|url init k IH]; simpl; [done|].
  intros Hk w. specialize (Hnet w url init).
  destruct (net w url init) as [o w']. apply IH, Hk, Hnet.
Qed.

Lemma truthy_string_spec (s : string) : truthy_string s = true ↔ s ≠ "".
Proof. destruct s; simpl; split; congruence. Qed.

(** ** The request executor *)

Section HttpProperties.
Context `{Platform}.

(** The one exchange [http] issues. *)
Lemma http_issues (url : string) (opts : option RequestOptions.t) :
  let o := default RequestOptions.empty opts in
  let body := default JUndefined (RequestOptions.body o) in
  issued (http url opts) =
  Some (url,
        {| RequestInit.method := Some (default GET (RequestOptions.method o));
           RequestInit.cache := Some (default cache_no_store (RequestOptions.cache o));
           RequestInit.headers :=
             Some (default ∅ (RequestOptions.headers o) ∪
                   (if ToBoolean body
                    then {[ "Content-Type" := "application/json" ]} else ∅));
           RequestInit.body := if ToBoolean body then JSON_stringify body else None |}).
Proof. reflexivity. Qed.

(** How [http] settles on each outcome of that exchange. *)
Lemma http_resume (url : string) (opts : option RequestOptions.t) (o : FetchOutcome) :
  resume (http url opts) o =
  match o with
  | Throws e => Reject (ThrownError e)
  | Returns res =>
      if negb (Response.ok res) then
        Reject (ThrownApiError
          (ApiError.new
             ("HTTP " +:+ pretty (Response.status res) +:+ " for " +:+
              HttpMethod_string
                (default GET (RequestOptions.method (default RequestOptions.empty opts)))
              +:+ " " +:+ url)
             (Response.status res) (Response.text res)))
      else if negb (truthy_string (Response.text res)) then Resolve JUndefined
      else match JSON_parse (Response.text res) with
           | Returns v => Resolve v
           | Throws _ => Resolve (JString (Response.text res))
           end
  end.
Proof.
  destruct o as [res|e]; [|reflexivity].
  unfold http, resume, mbind, Async_mbind, fetch; simpl.
  destruct (Response.ok res); simpl; [|reflexivity].
  destruct (truthy_string (Response.text res)); simpl; [|reflexivity].
  destruct (JSON_parse (Response.text res)); reflexivity.
Qed.

(** C1. Whatever the outcome of the exchange, [http] throws an [ApiError]
    exactly when the exchange brought a response that is not ok; the error
    then has the name ApiError, the status of the response, the body text of
    the response as it is, whether or not it is JSON, and a message made of
    the status, the method and the URL. Before the exchange [http] has
    neither returned nor thrown. *)
Theorem http_ApiError_iff_response_not_ok
    (url : string) (opts : option RequestOptions.t) (o : FetchOutcome) (e : ApiError.t) :
  (∃ init k, http url opts = AwaitFetch url init k) ∧
  (resume (http url opts) o = Reject (ThrownApiError e) ↔
   ∃ res, o = Returns res ∧ Response.ok res = false ∧
     e = {| ApiError.name := "ApiError";
            ApiError.message :=
              "HTTP " +:+ pretty (Response.status res) +:+ " for " +:+
              HttpMethod_string (default GET (opts ≫= RequestOptions.method)) +:+
              " " +:+ url;
            ApiError.status := Response.status res;
            ApiError.bodyText := Response.text res |}).
Proof.
  split; [eexists _, _; reflexivity|].
  rewrite http_resume. unfold Reject, Resolve. split.
  - destruct o as [res|e']; [|discriminate].
    destruct (Response.ok res) eqn:Hok; simpl.
    + destruct (truthy_string (Response.text res)); simpl; [|discriminate].
      destruct (JSON_parse (Response.text res)); discriminate.
    + intros [= <-]. exists res. repeat split; [done|].
      destruct opts as [opts|]; reflexivity.
  - intros (res & -> & Hok & ->). rewrite Hok. simpl.
    destruct opts as [opts|]; reflexivity.
Qed.

(** C2. On a response that is ok and whose body text is not empty and parses
    as JSON, [http] returns the value [JSON.parse] gives for that text. *)
Theorem http_returns_parsed_json
    (url : string) (opts : option RequestOptions.t) (res : Response.t) (v : JsValue) :
  Response.ok res = true →
  Response.text res ≠ "" →
  JSON_parse (Response.text res) = Returns v →
  resume (http url opts) (Returns res) = Resolve v.
Proof.
  intros Hok Htext Hparse. rewrite http_resume, Hok. simpl.
  apply truthy_string_spec in Htext. rewrite Htext, Hparse. reflexivity.
Qed.

(** C4. On a response that is ok and whose body text is empty, [http]
    returns [undefined] and throws nothing. *)
Theorem http_returns_undefined_on_empty_body
    (url : string) (opts : option RequestOptions.t) (res : Response.t) :
  Response.ok res = true →
  Response.text res = "" →
  resume (http url opts) (Returns res) = Resolve JUndefined.
Proof.
  intros Hok Htext. rewrite http_resume, Hok, Htext. reflexivity.
Qed.

(** On a response that is ok and whose body text is not empty and does not
    parse as JSON, [http] returns the body text. *)
Lemma http_returns_text_when_not_json
    (url : string) (opts : option RequestOptions.t) (res : Response.t) (e : JsError) :
  Response.ok res = true →
  Response.text res ≠ "" →
  JSON_parse (Response.text res) = Throws e →
  resume (http url opts) (Returns res) = Resolve (JString (Response.text res)).
Proof.
  intros Hok Htext Hparse. rewrite http_resume, Hok. simpl.
  apply truthy_string_spec in Htext. rewrite Htext, Hparse. reflexivity.
Qed.

(** C7. [http] issues one exchange, to the URL it was given; its method is
    GET when the caller supplied none and its caching directive is no-store
    when the caller supplied none, and they are the caller's otherwise. *)
Theorem http_default_method_and_cache
    (url : string) (opts : option RequestOptions.t) :
  ∃ init k,
    http url opts = AwaitFetch url init k ∧
    RequestInit.method init = Some (default GET (opts ≫= RequestOptions.method)) ∧
    RequestInit.cache init = Some (default cache_no_store (opts ≫= RequestOptions.cache)).
Proof.
  eexists _, _. split; [reflexivity|]. destruct opts as [opts|]; split; reflexivity.
Qed.

(** A falsy body value is not sent, and adds no header. *)
Lemma http_falsy_body (url : string) (opts : option RequestOptions.t) :
  ToBoolean (default JUndefined (opts ≫= RequestOptions.body)) = false →
  ∃ init k,
    http url opts = AwaitFetch url init k ∧
    RequestInit.body init = None ∧
    RequestInit.headers init = Some (default ∅ (opts ≫= RequestOptions.headers)).
Proof.
  intros Hfalsy. eexists _, _. split; [reflexivity|].
  destruct opts as [opts|]; simpl in *.
  - rewrite Hfalsy. split; [done|]. by rewrite (right_id_L ∅ (∪)).
  - split; [done|]. by rewrite (right_id_L ∅ (∪)).
Qed.

(** C5, as the code has it. When the body value is truthy, the exchange
    [http] issues has for body the JSON serialization of that value; under
    the key Content-Type its headers have the caller's value if the caller
    supplied headers with that key and application/json otherwise, and
    under every other key they are the caller's. *)
Theorem http_truthy_body_is_serialized
    (url : string) (opts : RequestOptions.t) (body : JsValue) :
  RequestOptions.body opts = Some body →
  ToBoolean body = true →
  ∃ init k headers,
    http url (Some opts) = AwaitFetch url init k ∧
    RequestInit.body init = JSON_stringify body ∧
    RequestInit.headers init = Some headers ∧
    headers !! "Content-Type" =
      Some (default "application/json"
              (default ∅ (RequestOptions.headers opts) !! "Content-Type")) ∧
    ∀ key, key ≠ "Content-Type" →
      headers !! key = default ∅ (RequestOptions.headers opts) !! key.
Proof.
  intros Hbody Htruthy. eexists _, _, _. split; [reflexivity|]. simpl.
  rewrite Hbody. simpl. rewrite Htruthy.
  split; [done|]. split; [done|]. split.
  - rewrite lookup_union.
    destruct (default ∅ (RequestOptions.headers opts) !! "Content-Type"); done.
  - intros key Hkey. rewrite lookup_union, lookup_singleton_ne by done.
    by destruct (default ∅ (RequestOptions.headers opts) !! key).
Qed.
End HttpProperties.

(** C3. On a response that is ok and whose body text is not empty and does
    not parse as JSON, [http] returns the body text itself and throws
    nothing, whatever the JSON built-ins are; with the reference built-ins
    the body text ok, bare and unquoted, comes back as the string ok. *)
Theorem http_returns_raw_text_when_not_json :
  (∀ (P : Platform) (url : string) (opts : option RequestOptions.t)
     (res : Response.t) (e : JsError),
     Response.ok res = true →
     Response.text res ≠ "" →
     JSON_parse (Response.text res) = Throws e →
     resume (http url opts) (Returns res) = Resolve (JString (Response.text res))) ∧
  (∀ (url : string) (opts : option RequestOptions.t) (status : N),
     resume (@http ReferenceJSON.platform url opts)
            (Returns {| Response.status := status; Response.ok := true;
                        Response.text := "ok" |})
     = Resolve (JString "ok")).
Proof.
  split.
  - intros P url opts res e. apply http_returns_text_when_not_json.
  - intros url opts status.
    apply (@http_returns_text_when_not_json ReferenceJSON.platform url opts
             (Response.mk status true "ok") ReferenceJSON.SyntaxError);
      [reflexivity|discriminate|reflexivity].
Qed.

Lemma http_returns_raw_text_when_not_json_witness :
  Response.ok (Response.of_status 200 "ok") = true ∧
  Response.text (Response.of_status 200 "ok") ≠ "" ∧
  @JSON_parse ReferenceJSON.platform (Response.text (Response.of_status 200 "ok"))
    = Throws ReferenceJSON.SyntaxError ∧
  resume (@http ReferenceJSON.platform BASE None) (Returns (Response.of_status 200 "ok"))
    = Resolve (JString "ok").
Proof.
  split; [reflexivity|]. split; [discriminate|]. split; [reflexivity|].
  apply (proj1 http_returns_raw_text_when_not_json ReferenceJSON.platform BASE None
           (Response.of_status 200 "ok") ReferenceJSON.SyntaxError);
    [reflexivity|discriminate|reflexivity].
Defined.

Lemma http_returns_parsed_json_witness :
  Response.ok (Response.of_status 200 (Sample.tasks_text [Sample.milk])) = true ∧
  Response.text (Response.of_status 200 (Sample.tasks_text [Sample.milk])) ≠ "" ∧
  @JSON_parse ReferenceJSON.platform (Sample.tasks_text [Sample.milk])
    = Returns (JArray [Sample.task_to_js Sample.milk]) ∧
  resume (@http ReferenceJSON.platform BASE None)
         (Returns (Response.of_status 200 (Sample.tasks_text [Sample.milk])))
    = Resolve (JArray [Sample.task_to_js Sample.milk]).
Proof.
  split; [reflexivity|]. split; [discriminate|]. split; [vm_compute; reflexivity|].
  apply (@http_returns_parsed_json ReferenceJSON.platform);
    [reflexivity|discriminate|vm_compute; reflexivity].
Defined.

Lemma http_returns_undefined_on_empty_body_witness :
  Response.ok (Response.of_status 204 "") = true ∧
  Response.text (Response.of_status 204 "") = "" ∧
  resume (@http ReferenceJSON.platform (BASE +:+ "/1")
            (Some {| RequestOptions.method := Some DELETE; RequestOptions.body := None;
                     RequestOptions.headers := None; RequestOptions.cache := None |}))
         (Returns (Response.of_status 204 ""))
    = Resolve JUndefined.
Proof.
  split; [reflexivity|]. split; [reflexivity|].
  apply (@http_returns_undefined_on_empty_body ReferenceJSON.platform); reflexivity.
Defined.

(** C9. The empty string, 0, false and null are falsy, as [undefined] is;
    and when the body value is falsy, be it supplied or not, the exchange
    [http] issues has no body, and its headers are the caller's with nothing
    added, so no JSON content type of [http]'s own: what counts is the
    truthiness of the body value, not its presence. *)
Theorem http_falsy_body_sends_no_body :
  (∀ body, body ∈ [JString ""; JNumber (S754_zero false); JBool false; JNull; JUndefined] →
           ToBoolean body = false) ∧
  (∀ (P : Platform) (url : string) (opts : option RequestOptions.t),
     ToBoolean (default JUndefined (opts ≫= RequestOptions.body)) = false →
     ∃ init k,
       http url opts = AwaitFetch url init k ∧
       RequestInit.body init = None ∧
       RequestInit.headers init = Some (default ∅ (opts ≫= RequestOptions.headers))).
Proof.
  split.
  - intros body Hbody.
    repeat (apply elem_of_cons in Hbody as [->|Hbody]; [reflexivity|]).
    by apply elem_of_nil in Hbody.
  - intros P url opts. apply http_falsy_body.
Qed.

Lemma http_falsy_body_sends_no_body_witness :
  ToBoolean (default JUndefined (Some Sample.zero_options ≫= RequestOptions.body)) = false ∧
  ∃ init k,
    @http ReferenceJSON.platform BASE (Some Sample.zero_options) = AwaitFetch BASE init k ∧
    RequestInit.body init = None ∧
    RequestInit.headers init =
      Some (default ∅ (Some Sample.zero_options ≫= RequestOptions.headers)).
Proof.
  split; [reflexivity|].
  apply (proj2 http_falsy_body_sends_no_body ReferenceJSON.platform BASE
           (Some Sample.zero_options)).
  reflexivity.
Defined.

(** C5 fails as it is stated: the body value 0 is passed, its JSON
    serialization is the text 0, and the exchange issued has no body and no
    Content-Type header. *)
Lemma http_body_zero_is_not_sent :
  ∃ init k,
    @http ReferenceJSON.platform BASE
      (Some Sample.zero_options)
      = AwaitFetch BASE init k ∧
    @JSON_stringify ReferenceJSON.platform (JNumber (S754_zero false)) = Some "0" ∧
    RequestInit.body init = None ∧
    (RequestInit.headers init ≫= (.!! "Content-Type")) = None.
Proof. eexists _, _. repeat split. Qed.

Lemma http_truthy_body_is_serialized_witness :
  RequestOptions.body Sample.plain_text_options = Some (Sample.task_to_js Sample.milk) ∧
  ToBoolean (Sample.task_to_js Sample.milk) = true ∧
  ∃ init k headers,
    @http ReferenceJSON.platform BASE (Some Sample.plain_text_options)
      = AwaitFetch BASE init k ∧
    RequestInit.body init = ReferenceJSON.stringify (Sample.task_to_js Sample.milk) ∧
    RequestInit.headers init = Some headers ∧
    headers !! "Content-Type" =
      Some (default "application/json"
              (default ∅ (RequestOptions.headers Sample.plain_text_options)
                 !! "Content-Type")) ∧
    ∀ key, key ≠ "Content-Type" →
      headers !! key =
      default ∅ (RequestOptions.headers Sample.plain_text_options) !! key.
Proof.
  split; [reflexivity|]. split; [reflexivity|].
  apply (@http_truthy_body_is_serialized ReferenceJSON.platform BASE
           Sample.plain_text_options (Sample.task_to_js Sample.milk)); reflexivity.
Defined.

(** With the headers of [Sample.plain_text_options] the content type sent
    is the caller's. *)
Lemma plain_text_content_type :
  default "application/json"
    (default ∅ (RequestOptions.headers Sample.plain_text_options) !! "Content-Type")
  = "text/plain".
Proof. vm_compute. reflexivity. Qed.

(** ** The resource client *)

Section ClientProperties.
Context `{Platform}.

(** The updates [saveTask] builds are the changed subset. *)
Lemma saveTask_updates_changed_subset (current : Task.t) (draft : Draft.t) :
  {| TaskUpdates.priority :=
       if negb (String.eqb (Draft.priority draft) (Task.priority current))
       then Some (Draft.priority draft) else None;
     TaskUpdates.status :=
       if negb (String.eqb (Draft.status draft) (Task.status current))
       then Some (Draft.status draft) else None |}
  = changed_subset current draft.
Proof.
  unfold changed_subset.
  destruct (String.eqb_spec (Draft.priority draft) (Task.priority current)),
           (String.eqb_spec (Draft.status draft) (Task.status current));
    repeat case_decide; simpl; congruence.
Qed.

Lemma TaskUpdates_no_keys (u : TaskUpdates.t) :
  (length (TaskUpdates.keys u) =? 0)%nat = true ↔ u = TaskUpdates.empty.
Proof.
  destruct u as [[p|] [s|]]; unfold TaskUpdates.empty; simpl; split; congruence.
Qed.

(** C6. Each operation of the client is the request executor called with
    a fixed method and path. [list] issues a GET to the base path, with no
    body; [create] issues a POST to the base path whose body is the
    serialization of the object of the title, priority and status of the
    payload; [update] issues a PATCH to the base path, a slash and the id,
    whose body is the serialization of the object of those of priority and
    status that the updates hold; [remove] issues a DELETE to the same path,
    with no body. The updates the page builds when it saves a task are the
    changed subset of the priority and status of the draft, and the page
    sends a PATCH only when that subset is not empty. *)
Theorem TasksAPI_operations_pass_through :
  (TasksAPI.list = http BASE None ∧
   issued TasksAPI.list =
   Some (BASE,
         {| RequestInit.method := Some GET;
            RequestInit.cache := Some cache_no_store;
            RequestInit.headers := Some ∅;
            RequestInit.body := None |})) ∧
  (∀ payload : TaskPayload.t,
     TasksAPI.create payload =
     http BASE
       (Some {| RequestOptions.method := Some POST;
                RequestOptions.body :=
                  Some (JObject [("title", JString (TaskPayload.title payload));
                                 ("priority", JString (TaskPayload.priority payload));
                                 ("status", JString (TaskPayload.status payload))]);
                RequestOptions.headers := None;
                RequestOptions.cache := None |}) ∧
     issued (TasksAPI.create payload) =
     Some (BASE,
           {| RequestInit.method := Some POST;
              RequestInit.cache := Some cache_no_store;
              RequestInit.headers := Some {[ "Content-Type" := "application/json" ]};
              RequestInit.body :=
                JSON_stringify
                  (JObject [("title", JString (TaskPayload.title payload));
                            ("priority", JString (TaskPayload.priority payload));
                            ("status", JString (TaskPayload.status payload))]) |})) ∧
  (∀ (id : string) (updates : TaskUpdates.t),
     let object :=
       JObject (match TaskUpdates.priority updates with
                | Some p => [("priority", JString p)]
                | None => []
                end ++
                match TaskUpdates.status updates with
                | Some s => [("status", JString s)]
                | None => []
                end) in
     TasksAPI.update id updates =
     http (BASE +:+ "/" +:+ id)
       (Some {| RequestOptions.method := Some PATCH;
                RequestOptions.body := Some object;
                RequestOptions.headers := None;
                RequestOptions.cache := None |}) ∧
     issued (TasksAPI.update id updates) =
     Some (BASE +:+ "/" +:+ id,
           {| RequestInit.method := Some PATCH;
              RequestInit.cache := Some cache_no_store;
              RequestInit.headers := Some {[ "Content-Type" := "application/json" ]};
              RequestInit.body := JSON_stringify object |})) ∧
  (∀ id : string,
     TasksAPI.remove id =
     http (BASE +:+ "/" +:+ id)
       (Some {| RequestOptions.method := Some DELETE;
                RequestOptions.body := None;
                RequestOptions.headers := None;
                RequestOptions.cache := None |}) ∧
     issued (TasksAPI.remove id) =
     Some (BASE +:+ "/" +:+ id,
           {| RequestInit.method := Some DELETE;
              RequestInit.cache := Some cache_no_store;
              RequestInit.headers := Some ∅;
              RequestInit.body := None |})) ∧
  (∀ (view s : ViewState.t) (id : string) (current : Task.t) (draft : Draft.t),
     List.find (λ t, String.eqb (Task.id t) id) (ViewState.tasks view) = Some current →
     ViewState.drafts view !! id = Some draft →
     (changed_subset current draft = TaskUpdates.empty →
      issued (saveTask view id s) = None) ∧
     (changed_subset current draft ≠ TaskUpdates.empty →
      issued (saveTask view id s) =
      Some (API +:+ "/" +:+ id,
            {| RequestInit.method := Some PATCH;
               RequestInit.cache := None;
               RequestInit.headers := Some {[ "Content-Type" := "application/json" ]};
               RequestInit.body :=
                 JSON_stringify (TaskUpdates.to_js (changed_subset current draft)) |}))).
Proof.
  split; [split; [reflexivity|]|].
  { unfold TasksAPI.list. rewrite http_issues. simpl. by rewrite (left_id_L ∅ (∪)). }
  split.
  { intros payload. split; [reflexivity|]. unfold TasksAPI.create.
    rewrite http_issues. simpl. by rewrite (left_id_L ∅ (∪)). }
  split.
  { intros id updates object. split; [reflexivity|]. unfold TasksAPI.update.
    rewrite http_issues. simpl. by rewrite (left_id_L ∅ (∪)). }
  split.
  { intros id. split; [reflexivity|]. unfold TasksAPI.remove.
    rewrite http_issues. simpl. by rewrite (left_id_L ∅ (∪)). }
  intros view s id current draft Hfind Hdraft. unfold saveTask.
  rewrite Hfind, Hdraft, saveTask_updates_changed_subset.
  destruct (length (TaskUpdates.keys (changed_subset current draft)) =? 0)%nat eqn:Hkeys.
  - apply TaskUpdates_no_keys in Hkeys. split; [reflexivity|congruence].
  - split; [|reflexivity]. intros Hempty.
    apply TaskUpdates_no_keys in Hempty. congruence.
Qed.
End ClientProperties.

Lemma TasksAPI_operations_pass_through_witness :
  List.find (λ t, String.eqb (Task.id t) "1") (ViewState.tasks Sample.loaded)
    = Some Sample.milk ∧
  ViewState.drafts (setDrafts {[ "1" := Draft.mk "High" "open" ]} Sample.loaded) !! "1"
    = Some (Draft.mk "High" "open") ∧
  changed_subset Sample.milk (Draft.mk "High" "open")
    = {| TaskUpdates.priority := Some "High"; TaskUpdates.status := None |} ∧
  issued (@saveTask ReferenceJSON.platform
            (setDrafts {[ "1" := Draft.mk "High" "open" ]} Sample.loaded) "1"
            Sample.loaded) =
  Some (API +:+ "/" +:+ "1",
        {| RequestInit.method := Some PATCH;
           RequestInit.cache := None;
           RequestInit.headers := Some {[ "Content-Type" := "application/json" ]};
           RequestInit.body :=
             @JSON_stringify ReferenceJSON.platform
               (TaskUpdates.to_js (changed_subset Sample.milk (Draft.mk "High" "open"))) |}).
Proof.
  split; [reflexivity|]. split; [reflexivity|]. split; [reflexivity|].
  apply (proj2 (proj2 (proj2 (proj2 (@TasksAPI_operations_pass_through
           ReferenceJSON.platform))))
           (setDrafts {[ "1" := Draft.mk "High" "open" ]} Sample.loaded)
           Sample.loaded "1" Sample.milk (Draft.mk "High" "open"));
    [reflexivity|reflexivity|discriminate].
Defined.

(** ** The filters of the page *)

Lemma append_cons (c : ascii) (s t : string) :
  String c s +:+ t = String c (s +:+ t).
Proof. reflexivity. Qed.

Lemma append_empty (t : string) : "" +:+ t = t.
Proof. reflexivity. Qed.

Lemma prefix_spec (p s : string) :
  String.prefix p s = true ↔ ∃ after, s = p +:+ after.
Proof.
  revert s. induction p as [|a p IH]; intros [|b s]; simpl.
  - split; [eauto|done].
  - split; [eauto|done].
  - split; [done|]. intros [after Hafter]. by rewrite append_cons in Hafter.
  - destruct (ascii_dec a b) as [->|Hne].
    + rewrite IH. split; intros [after Hafter]; exists after;
        rewrite append_cons in *; congruence.
    + split; [done|]. intros [after Hafter]. rewrite append_cons in Hafter. congruence.
Qed.

Lemma includes_empty (search : string) :
  includes "" search = String.prefix search "" || false.
Proof. reflexivity. Qed.

Lemma includes_cons (c : ascii) (s search : string) :
  includes (String c s) search = String.prefix search (String c s) || includes s search.
Proof. reflexivity. Qed.

Lemma includes_spec (s search : string) :
  includes s search = true ↔ contains s search.
Proof.
  unfold contains. induction s as [|c s IH];
    [rewrite includes_empty|rewrite includes_cons].
  - rewrite orb_false_r, prefix_spec. split.
    + intros [after ->]. by exists "", after.
    + intros ([|b before] & after & Heq).
      * rewrite append_empty in Heq. eauto.
      * by rewrite append_cons in Heq.
  - rewrite orb_true_iff, prefix_spec, IH. split.
    + intros [[after ->]|(before & after & ->)].
      * by exists "", after.
      * by exists (String c before), after.
    + intros ([|b before] & after & Heq).
      * rewrite append_empty in Heq. left. eauto.
      * rewrite append_cons in Heq. right. injection Heq as -> ->. eauto.
Qed.

Lemma contains_empty (s : string) : contains s "".
Proof. by exists "", s. Qed.

Lemma trim_all_white_space (s : string) : all_white_space s → trim s = "".
Proof.
  unfold all_white_space, trim. induction s as [|c s IH]; simpl; [done|].
  intros Hall. rewrite (Hall c) by (left). apply IH.
  intros c' Hc'. apply Hall. by right.
Qed.

Lemma filter_sublist {A : Type} (keep : A → bool) (l : list A) :
  sublist (List.filter keep l) l.
Proof.
  induction l as [|x l IH]; simpl; [constructor|].
  destruct (keep x); by constructor.
Qed.

(** The test [filteredTasks] applies to a task decides [passes_filters]. *)
Lemma filteredTasks_test (view : ViewState.t) (t : Task.t) :
  (let query := toLowerCase (trim (ViewState.q view)) in
   (if truthy_string query
    then includes (toLowerCase (Task.title t)) query else true) &&
   (if String.eqb (ViewState.priorityFilter view) "All" then true
    else String.eqb (Task.priority t) (ViewState.priorityFilter view)) &&
   (if String.eqb (ViewState.statusFilter view) "All" then true
    else String.eqb (Task.status t) (ViewState.statusFilter view))) = true
  ↔ passes_filters view t.
Proof.
  unfold passes_filters. simpl. rewrite !andb_true_iff.
  assert (∀ a b : string,
            (if String.eqb a "All" then true else String.eqb b a) = true
            ↔ a = "All" ∨ b = a) as Hfilter.
  { intros a b. destruct (String.eqb_spec a "All") as [->|Hne].
    - split; [by left|done].
    - rewrite String.eqb_eq. split; [by right|]. by intros [?|?]. }
  rewrite !Hfilter.
  destruct (toLowerCase (trim (ViewState.q view))) as [|c query] eqn:Hquery; simpl.
  - split; [|tauto]. intros [[_ ?] ?]. split; [apply contains_empty|done].
  - rewrite includes_spec. tauto.
Qed.

(** C10 fails as it is stated: with the query milk the page shows the task
    of title Buy Milk, and that title as it is written does not contain
    the query. *)
Lemma filteredTasks_lowers_the_title :
  Sample.milk ∈ @filteredTasks (setQ "milk" Sample.loaded) ∧
  ¬ passes_filters_title_as_written (setQ "milk" Sample.loaded) Sample.milk.
Proof.
  split; [vm_compute; left|].
  intros [Hcontains _]. apply includes_spec in Hcontains. vm_compute in Hcontains.
  discriminate.
Qed.

(** C10, as the code has it. [filteredTasks] is [tasks] filtered, in the
    order of [tasks], by a test that holds of exactly the tasks whose title
    in lower case contains the trimmed query in lower case and whose
    priority and status are the ones the filters ask for, a filter set to
    All asking for nothing; so it is a subsequence of [tasks]. Every title
    matches when the trimmed query is empty, and with a query of white space
    only and both filters set to All, [filteredTasks] is [tasks]. *)
Theorem filteredTasks_is_the_filtered_subsequence (view : ViewState.t) :
  (∃ keep : Task.t → bool,
     (∀ t, keep t = true ↔ passes_filters view t) ∧
     filteredTasks view = List.filter keep (ViewState.tasks view)) ∧
  sublist (filteredTasks view) (ViewState.tasks view) ∧
  (trim (ViewState.q view) = "" →
   ∀ t, contains (toLowerCase (Task.title t)) (toLowerCase (trim (ViewState.q view)))) ∧
  (all_white_space (ViewState.q view) →
   ViewState.priorityFilter view = "All" →
   ViewState.statusFilter view = "All" →
   filteredTasks view = ViewState.tasks view).
Proof.
  split; [|split; [apply filter_sublist|split]].
  - eexists. split; [|reflexivity]. intros t. apply filteredTasks_test.
  - intros -> t. apply contains_empty.
  - intros Hspace Hpriority Hstatus. unfold filteredTasks.
    rewrite (trim_all_white_space _ Hspace), Hpriority, Hstatus. simpl.
    induction (ViewState.tasks view) as [|t l IH]; simpl; [done|]. by rewrite IH.
Qed.

Lemma filteredTasks_is_the_filtered_subsequence_witness :
  all_white_space "  " ∧
  ViewState.priorityFilter (setQ "  " Sample.loaded) = "All" ∧
  ViewState.statusFilter (setQ "  " Sample.loaded) = "All" ∧
  filteredTasks (setQ "  " Sample.loaded) = ViewState.tasks (setQ "  " Sample.loaded).
Proof.
  assert (all_white_space "  ") as Hspace.
  { intros c Hc. simpl in Hc. repeat (apply elem_of_cons in Hc as [->|Hc]; [reflexivity|]).
    by apply elem_of_nil in Hc. }
  split; [exact Hspace|]. split; [reflexivity|]. split; [reflexivity|].
  apply (proj2 (proj2 (proj2
           (filteredTasks_is_the_filtered_subsequence (setQ "  " Sample.loaded)))));
    [exact Hspace|reflexivity|reflexivity].
Defined.

(** ** The drafts of the page *)

Section ViewProperties.
Context `{Platform}.
Import ViewState.

Lemma drafts_lookup_other (data : list Task.t) (acc : gmap string Draft.t) (id : string) :
  id ∉ Task.id <$> data →
  foldl (λ d t, <[Task.id t := Draft_of t]> d) acc data !! id = acc !! id.
Proof.
  revert acc. induction data as [|t data IH]; intros acc Hid; simpl; [done|].
  rewrite fmap_cons, not_elem_of_cons in Hid. destruct Hid as [Hne Hid].
  rewrite IH by done. by rewrite lookup_insert_ne.
Qed.

Lemma drafts_lookup_distinct (data : list Task.t) (acc : gmap string Draft.t) (t : Task.t) :
  distinct_ids data → t ∈ data →
  foldl (λ d t, <[Task.id t := Draft_of t]> d) acc data !! Task.id t = Some (Draft_of t).
Proof.
  unfold distinct_ids. revert acc.
  induction data as [|t' data IH]; intros acc Hdistinct Ht; [by apply elem_of_nil in Ht|].
  rewrite fmap_cons, NoDup_cons in Hdistinct. destruct Hdistinct as [Hfresh Hdistinct].
  simpl. apply elem_of_cons in Ht as [->|Ht].
  - rewrite drafts_lookup_other by done. apply lookup_insert_eq.
  - by apply IH.
Qed.

Lemma mirrors_same (s s' : ViewState.t) :
  tasks s' = tasks s → drafts s' = drafts s → mirrors s → mirrors s'.
Proof. unfold mirrors. intros -> ->. done. Qed.

Lemma mirrors_fetched (s' : ViewState.t) (data : list Task.t) :
  distinct_ids data →
  tasks s' = data →
  drafts s' = foldl (λ d t, <[Task.id t := Draft_of t]> d) ∅ data →
  mirrors s'.
Proof.
  unfold mirrors. intros Hdistinct -> -> t Ht. by apply drafts_lookup_distinct.
Qed.

(** Resetting a row whose draft mirrors its task changes no draft. *)
Lemma mirrors_reset (s s' : ViewState.t) (id : string) (current : Task.t) :
  List.find (λ t, String.eqb (Task.id t) id) (tasks s) = Some current →
  tasks s' = tasks s →
  drafts s' = <[id := Draft_of current]> (drafts s) →
  mirrors s → mirrors s'.
Proof.
  unfold mirrors. intros Hfind -> -> Hs t Ht.
  apply find_some in Hfind as [Hcurrent Hid].
  apply String.eqb_eq in Hid. apply list_elem_of_In in Hcurrent.
  destruct (decide (id = Task.id t)) as [Heq|Hne].
  - rewrite Heq, lookup_insert_eq. rewrite <- (Hs t Ht), <- Heq, <- Hid.
    symmetry. by apply Hs.
  - rewrite lookup_insert_ne by done. by apply Hs.
Qed.

Ltac unfold_handler :=
  repeat (progress
    (cbv [requestDelete cancelDelete resetFilters openAddPopup onDraftChange
          try_finally try_catch mbind Action_mbind mret Action_mret modify throw
          await showToast fetch Resolve Reject negb res_json_Tasks];
     cbn [Await_bind always])).

Ltac done_unchanged Hs :=
  eexists; split; [reflexivity|]; by eapply mirrors_same; [..|exact Hs].

Lemma fetchTasks_keeps_mirror (s : ViewState.t) :
  mirrors s → always lists_well_formed keeps_mirror (fetchTasks s).
Proof.
  intros Hs. unfold fetchTasks. unfold_handler.
  intros [res|e] Ho; unfold_handler; [|done_unchanged Hs].
  destruct (Response.ok res) eqn:Hok; unfold_handler; [|done_unchanged Hs].
  destruct (JSON_parse (Response.text res)) as [v|e] eqn:Hparse;
    unfold_handler; [|done_unchanged Hs].
  destruct (Ho eq_refl eq_refl res v eq_refl Hok Hparse) as (data & -> & Hdistinct).
  unfold_handler. eexists. split; [reflexivity|]. by eapply mirrors_fetched.
Qed.

(** What a handler does after its own exchange went well and before it
    fetches the list again keeps the mirror, and so does the fetch. *)
Lemma then_fetchTasks_keeps_mirror (s s' : ViewState.t)
    (handler : Thrown → Action unit) :
  (∀ e s'', mirrors s'' → always lists_well_formed keeps_mirror (handler e s'')) →
  tasks s' = tasks s → drafts s' = drafts s → mirrors s →
  always lists_well_formed keeps_mirror
    (Await_bind (λ o, match o with
                      | Abrupt e s'' => handler e s''
                      | _ => Done o
                      end) (fetchTasks s')).
Proof.
  intros Hhandler Htasks Hdrafts Hs. apply always_bind.
  eapply always_mono; [|apply fetchTasks_keeps_mirror; by eapply mirrors_same].
  intros [[] s''|e s''|] (s3 & Hfinal & Hs3); simpl in Hfinal; simplify_eq.
  - simpl. by exists s3.
  - by apply Hhandler.
Qed.

Lemma handle_keeps_mirror (s : ViewState.t) (ev : Event) :
  mirrors s → is_draft_edit ev = false →
  always lists_well_formed keeps_mirror (handle s ev s).
Proof.
  intros Hs Hev. destruct ev; try discriminate Hev; clear Hev;
    unfold handle; try (unfold_handler; done_unchanged Hs).
  - by apply fetchTasks_keeps_mirror.
  - unfold addTask. destruct (truthy_string (trim (newTitle s)));
      unfold_handler; [|done_unchanged Hs].
    intros [res|e] _; unfold_handler; [|done_unchanged Hs].
    destruct (Response.ok res); unfold_handler; [|done_unchanged Hs].
    apply (then_fetchTasks_keeps_mirror s); [|done..].
    intros e s'' Hs''. unfold_handler. done_unchanged Hs''.
  - unfold saveTask.
    destruct (List.find _ (tasks s)) as [current|]; [|unfold_handler; done_unchanged Hs].
    destruct (drafts s !! id) as [draft|]; [|unfold_handler; done_unchanged Hs].
    destruct (length _ =? 0)%nat; unfold_handler; [done_unchanged Hs|].
    intros [res|e] _; unfold_handler; [|done_unchanged Hs].
    destruct (Response.ok res); unfold_handler; [|done_unchanged Hs].
    apply (then_fetchTasks_keeps_mirror s); [|done..].
    intros e s'' Hs''. unfold_handler. done_unchanged Hs''.
  - unfold resetRow.
    destruct (List.find _ (tasks s)) as [current|] eqn:Hfind;
      unfold_handler; [|done_unchanged Hs].
    eexists. split; [reflexivity|]. by eapply mirrors_reset.
  - unfold confirmDelete.
    destruct (pendingDeleteId s) as [pending|]; [|unfold_handler; done_unchanged Hs].
    destruct (truthy_string pending); unfold_handler; [|done_unchanged Hs].
    intros [res|e] _; unfold_handler; [|done_unchanged Hs].
    destruct (Response.ok res); unfold_handler; [|done_unchanged Hs].
    apply (then_fetchTasks_keeps_mirror s); [|done..].
    intros e s'' Hs''. unfold_handler. done_unchanged Hs''.
Qed.

Lemma dispatch_keeps_mirror {W : Type}
    (net : W → string → RequestInit.t → FetchOutcome * W)
    (w : W) (s : ViewState.t) (ev : Event) :
  (∀ w url init, lists_well_formed url init (net w url init).1) →
  mirrors s → is_draft_edit ev = false →
  ∃ s' w', dispatch net w s ev = Some (s', w') ∧ mirrors s'.
Proof.
  intros Hnet Hs Hev.
  pose proof (always_run _ _ net _ Hnet (handle_keeps_mirror s ev Hs Hev) w) as Hrun.
  unfold dispatch. destruct (run net w (handle s ev s)) as [o w'].
  destruct Hrun as (s' & Hfinal & Hs'). exists s', w'.
  destruct o; simpl in Hfinal; by simplify_eq.
Qed.

Lemma dispatch_all_keeps_mirror {W : Type}
    (net : W → string → RequestInit.t → FetchOutcome * W)
    (w : W) (s : ViewState.t) (evs : list Event) :
  (∀ w url init, lists_well_formed url init (net w url init).1) →
  mirrors s → Forall (λ ev, is_draft_edit ev = false) evs →
  ∃ s' w', dispatch_all net w s evs = Some (s', w') ∧ mirrors s'.
Proof.
  intros Hnet Hs Hevs. revert w s Hs.
  induction Hevs as [|ev evs Hev _ IH]; intros w s Hs; simpl; [by eauto|].
  destruct (dispatch_keeps_mirror net w s ev Hnet Hs Hev) as (s' & w' & -> & Hs').
  by apply IH.
Qed.

(** C8, as the code has it. When [fetchTasks] has got an ok response whose
    body is the JSON of a list of tasks with distinct ids, the page holds
    that list, and for every task of the list the draft under its id is the
    priority and status of the task. From there the drafts mirror the tasks
    the page holds after every sequence of events that has no edit of a
    draft in it, against every remote side whose lists have distinct ids. *)
Theorem drafts_mirror_fetched_tasks {W : Type}
    (net : W → string → RequestInit.t → FetchOutcome * W) (w : W)
    (s : ViewState.t) (res : Response.t) (v : JsValue) (data : list Task.t)
    (evs : list Event) :
  Response.ok res = true →
  JSON_parse (Response.text res) = Returns v →
  as_Tasks v = Some data →
  distinct_ids data →
  (∀ w url init, lists_well_formed url init (net w url init).1) →
  Forall (λ ev, is_draft_edit ev = false) evs →
  ∃ s1,
    resume (fetchTasks s) (Returns res) = Done (Normal () s1) ∧
    tasks s1 = data ∧
    (∀ t, t ∈ data → drafts s1 !! Task.id t = Some (Draft_of t)) ∧
    ∃ s2 w2, dispatch_all net w s1 evs = Some (s2, w2) ∧ mirrors s2.
Proof.
  intros Hok Hparse Hdata Hdistinct Hnet Hevs.
  eexists. split.
  { unfold fetchTasks, resume. unfold_handler. rewrite Hok. unfold_handler.
    rewrite Hparse, Hdata. unfold_handler. reflexivity. }
  split; [reflexivity|].
  split; [intros t Ht; by apply drafts_lookup_distinct|].
  apply dispatch_all_keeps_mirror; [done| |done].
  by eapply mirrors_fetched.
Qed.
End ViewProperties.

Lemma sample_distinct_ids : distinct_ids [Sample.milk; Sample.report].
Proof.
  unfold distinct_ids. cbn. apply NoDup_cons. split; [|apply NoDup_singleton].
  by intros [=]%list_elem_of_singleton.
Defined.

Lemma sample_lists_well_formed (w : unit) (url : string) (init : RequestInit.t) :
  @lists_well_formed ReferenceJSON.platform url init (Sample.net w url init).1.
Proof.
  intros _ _ res v [= <-] _ Hparse. vm_compute in Hparse. injection Hparse as <-.
  exists [Sample.milk; Sample.report]. split; [reflexivity|].
  exact sample_distinct_ids.
Defined.

Lemma drafts_mirror_fetched_tasks_witness :
  Response.ok Sample.response = true ∧
  @JSON_parse ReferenceJSON.platform (Response.text Sample.response)
    = Returns (JArray (Sample.task_to_js <$> [Sample.milk; Sample.report])) ∧
  as_Tasks (JArray (Sample.task_to_js <$> [Sample.milk; Sample.report]))
    = Some [Sample.milk; Sample.report] ∧
  distinct_ids [Sample.milk; Sample.report] ∧
  (∀ w url init,
     @lists_well_formed ReferenceJSON.platform url init (Sample.net w url init).1) ∧
  Forall (λ ev, is_draft_edit ev = false) Sample.events ∧
  ∃ s1,
    resume (@fetchTasks ReferenceJSON.platform ViewState.initial) (Returns Sample.response)
      = Done (Normal () s1) ∧
    ViewState.tasks s1 = [Sample.milk; Sample.report] ∧
    (∀ t, t ∈ [Sample.milk; Sample.report] →
          ViewState.drafts s1 !! Task.id t = Some (Draft_of t)) ∧
    ∃ s2 w2,
      @dispatch_all ReferenceJSON.platform unit Sample.net () s1 Sample.events
        = Some (s2, w2) ∧
      mirrors s2.
Proof.
  pose proof sample_distinct_ids as Hdistinct.
  assert (Forall (λ ev, is_draft_edit ev = false) Sample.events) as Hevents.
  { repeat constructor. }
  split; [reflexivity|]. split; [vm_compute; reflexivity|]. split; [reflexivity|].
  split; [exact Hdistinct|]. split; [exact sample_lists_well_formed|].
  split; [exact Hevents|].
  apply (@drafts_mirror_fetched_tasks ReferenceJSON.platform unit Sample.net ()
           ViewState.initial Sample.response
           (JArray (Sample.task_to_js <$> [Sample.milk; Sample.report]))
           [Sample.milk; Sample.report] Sample.events);
    [reflexivity|vm_compute; reflexivity|reflexivity|exact Hdistinct
    |exact sample_lists_well_formed|exact Hevents].
Defined.

(** C8 fails as it is stated: when the list fetched has two tasks of one
    id, the draft under that id is the one of the later task, and differs
    from the priority and status of the earlier task. *)
Lemma fetchTasks_duplicate_id_last_wins :
  ∃ s1,
    resume (@fetchTasks ReferenceJSON.platform ViewState.initial)
           (Returns Sample.response_with_duplicate)
      = Done (Normal () s1) ∧
    ViewState.tasks s1 = [Sample.milk; Sample.milk_again] ∧
    Sample.milk ∈ ViewState.tasks s1 ∧
    ViewState.drafts s1 !! Task.id Sample.milk = Some (Draft_of Sample.milk_again) ∧
    Draft_of Sample.milk_again ≠ Draft_of Sample.milk.
Proof.
  eexists. split; [vm_compute; reflexivity|].
  split; [reflexivity|]. split; [left|]. split; [vm_compute; reflexivity|discriminate].
Qed.

(** ** Runs *)

(** The page mounted against the sample remote side holds its list. *)
Example mounted_page_is_loaded :
  @dispatch ReferenceJSON.platform unit Sample.net () ViewState.initial Mounted
  = Some (Sample.loaded, ()).
Proof. vm_compute. reflexivity. Qed.

(** [TasksAPI.list] against a remote side that answers 404. *)
Example list_against_not_found :
  run (λ (w : unit) _ _, (Returns Sample.not_found, w)) ()
      (@TasksAPI.list ReferenceJSON.platform)
  = (Rejected (ThrownApiError
       {| ApiError.name := "ApiError";
          ApiError.message := "HTTP 404 for GET http://localhost:3001/tasks";
          ApiError.status := 404;
          ApiError.bodyText := "Not Found" |}), ()).
Proof. vm_compute. reflexivity. Qed.

(** [TasksAPI.list] against the sample remote side. *)
Example list_against_sample :
  run Sample.net () (@TasksAPI.list ReferenceJSON.platform)
  = (Fulfilled (JArray (Sample.task_to_js <$> [Sample.milk; Sample.report])), ()).
Proof. vm_compute. reflexivity. Qed.

(** The query milk shows the task of title Buy Milk only. *)
Example filtered_by_milk :
  filteredTasks (setQ " MILK " Sample.loaded) = [Sample.milk].
Proof. vm_compute. reflexivity. Qed.

(** * Further properties *)

(** ** The request executor *)

Section HttpFurther.
Context `{Platform}.

(** X1. [http] awaits one exchange and no other: whatever the outcome of
    the exchange, it has settled; and when [fetch] rejects, [http] rejects
    with the error of [fetch] as it is. *)
Theorem http_settles_after_one_exchange
    (url : string) (opts : option RequestOptions.t) :
  (∀ o, ∃ r, resume (http url opts) o = Done r) ∧
  (∀ e, resume (http url opts) (Throws e) = Reject (ThrownError e)).
Proof.
  split; [|intros e; apply http_resume].
  intros o. rewrite http_resume. destruct o as [res|e]; [|by eexists].
  destruct (negb (Response.ok res)); [by eexists|].
  destruct (negb (truthy_string (Response.text res))); [by eexists|].
  destruct (JSON_parse (Response.text res)); by eexists.
Qed.

(** X2. On a response that is ok [http] never throws: it returns
    [undefined] for an empty body text, the parsed value for a text that
    parses, and the text for any other. *)
Theorem http_ok_response_resolves
    (url : string) (opts : option RequestOptions.t) (res : Response.t) :
  Response.ok res = true →
  ∃ v, resume (http url opts) (Returns res) = Resolve v ∧
       ((Response.text res = "" ∧ v = JUndefined) ∨
        (Response.text res ≠ "" ∧ JSON_parse (Response.text res) = Returns v) ∨
        (Response.text res ≠ "" ∧ (∃ e, JSON_parse (Response.text res) = Throws e) ∧
         v = JString (Response.text res))).
Proof.
  intros Hok. rewrite http_resume, Hok. simpl.
  destruct (truthy_string (Response.text res)) eqn:Htext; simpl.
  - apply truthy_string_spec in Htext.
    destruct (JSON_parse (Response.text res)) as [v|e] eqn:Hparse; eexists;
      (split; [reflexivity|]); eauto 10.
  - exists JUndefined. split; [reflexivity|]. left.
    destruct (Response.text res); [done|discriminate].
Qed.

(** X3. The headers of the exchange [http] issues are the caller's, every
    one of them with the caller's value, and one more when the body value
    is truthy and the caller has none under that key: Content-Type with
    application/json. *)
Theorem http_headers_are_callers_plus_content_type
    (url : string) (opts : option RequestOptions.t) :
  ∃ init k headers,
    http url opts = AwaitFetch url init k ∧
    RequestInit.headers init = Some headers ∧
    ∀ key,
      headers !! key =
      match default ∅ (opts ≫= RequestOptions.headers) !! key with
      | Some value => Some value
      | None =>
          if ToBoolean (default JUndefined (opts ≫= RequestOptions.body)) &&
             String.eqb key "Content-Type"
          then Some "application/json" else None
      end.
Proof.
  eexists _, _, _. split; [reflexivity|]. split; [reflexivity|].
  intros key. rewrite lookup_union.
  replace (default ∅ (RequestOptions.headers (default RequestOptions.empty opts)))
    with (default ∅ (opts ≫= RequestOptions.headers)) by by destruct opts.
  replace (default JUndefined (RequestOptions.body (default RequestOptions.empty opts)))
    with (default JUndefined (opts ≫= RequestOptions.body)) by by destruct opts.
  destruct (default ∅ (opts ≫= RequestOptions.headers) !! key) as [value|];
    destruct (ToBoolean _); simpl;
    destruct (String.eqb_spec key "Content-Type") as [->|Hne];
    rewrite ?lookup_singleton_eq, ?lookup_singleton_ne, ?lookup_empty by done; done.
Qed.
End HttpFurther.

Lemma http_ok_response_resolves_witness :
  Response.ok Sample.response = true ∧
  ∃ v, resume (@http ReferenceJSON.platform BASE None) (Returns Sample.response)
         = Resolve v ∧
       ((Response.text Sample.response = "" ∧ v = JUndefined) ∨
        (Response.text Sample.response ≠ "" ∧
         @JSON_parse ReferenceJSON.platform (Response.text Sample.response) = Returns v) ∨
        (Response.text Sample.response ≠ "" ∧
         (∃ e, @JSON_parse ReferenceJSON.platform (Response.text Sample.response)
                 = Throws e) ∧
         v = JString (Response.text Sample.response))).
Proof.
  split; [reflexivity|].
  apply (@http_ok_response_resolves ReferenceJSON.platform BASE None Sample.response).
  reflexivity.
Defined.

(** ** The handlers of the page *)

Section HandlersFurther.
Context `{Platform}.
Import ViewState.

Ltac step_handler :=
  repeat (progress
    (cbv [requestDelete cancelDelete resetFilters openAddPopup onDraftChange
          try_finally try_catch mbind Action_mbind mret Action_mret modify throw
          await showToast fetch Resolve Reject negb res_json_Tasks];
     cbn [Await_bind always resume issued])).



(** X5. When the retrieval of the list fails, by a rejection of [fetch],
    a response that is not ok or a body that is not JSON, [fetchTasks] keeps
    the tasks and the drafts the page held, shows the message of the failure
    as error and as toast, and ends the loading. *)
Theorem fetchTasks_failure_keeps_tasks
    (s : ViewState.t) (o : FetchOutcome) (message : string) :
  retrieval_fails o message →
  ∃ s', resume (fetchTasks s) o = Done (Normal () s') ∧
        shows_error s s' message ∧ loading s' = false.
Proof.
  unfold retrieval_fails, shows_error, fetchTasks. step_handler.
  destruct o as [res|e]; step_handler.
  - destruct (Response.ok res); step_handler.
    + intros (e & -> & ->). step_handler. by eexists.
    + intros ->. by eexists.
  - intros ->. by eexists.
Qed.

(** A handler that ends with [fetchTasks] inside its [try] settles as
    [fetchTasks] does. *)
Lemma run_try_catch_settled {W A : Type}
    (net : W → string → RequestInit.t → FetchOutcome * W)
    (handler : Thrown → Action A) (m : Await (Outcome A)) :
  always (λ _ _ _, True) not_thrown m →
  ∀ w, run net w (Await_bind (λ o, match o with
                                    | Abrupt e s' => handler e s'
                                    | _ => Done o
                                    end) m) = run net w m.
Proof.
  induction m as [o|url init k IH]; simpl.
  - by destruct o.
  - intros Hk w. destruct (net w url init) as [o w']. by apply IH, Hk.
Qed.

Lemma fetchTasks_not_thrown pre (s : ViewState.t) :
  always pre not_thrown (fetchTasks s).
Proof.
  unfold fetchTasks. step_handler. intros [res|e] _; step_handler; [|done].
  destruct (Response.ok res); step_handler; [|done].
  destruct (JSON_parse (Response.text res)) as [v|e]; step_handler; [|done].
  destruct (as_Tasks v); step_handler; done.
Qed.




Lemma fetchTasks_without_retrieval (s s0 : ViewState.t) :
  tasks s = tasks s0 →
  always (λ url init o, ¬ list_retrieved url init o)
    (λ o : Outcome unit, ∃ s', final_state o = Some s' ∧ tasks s' = tasks s0)
    (fetchTasks s).
Proof.
  intros Hs. unfold fetchTasks. step_handler.
  intros [res|e] Ho; step_handler; [|by eexists].
  destruct (Response.ok res) eqn:Hok; step_handler; [|by eexists].
  destruct Ho. split; [done|]. by exists res.
Qed.

Lemma then_fetchTasks_without_retrieval (s' s0 : ViewState.t)
    (handler : Thrown → Action unit) :
  (∀ e s'', tasks s'' = tasks s0 →
     always (λ url init o, ¬ list_retrieved url init o)
       (λ o : Outcome unit, ∃ s3, final_state o = Some s3 ∧ tasks s3 = tasks s0)
       (handler e s'')) →
  tasks s' = tasks s0 →
  always (λ url init o, ¬ list_retrieved url init o)
    (λ o : Outcome unit, ∃ s3, final_state o = Some s3 ∧ tasks s3 = tasks s0)
    (Await_bind (λ o, match o with
                      | Abrupt e s'' => handler e s''
                      | _ => Done o
                      end) (fetchTasks s')).
Proof.
  intros Hhandler Hs'. apply always_bind.
  eapply always_mono; [|by apply fetchTasks_without_retrieval].
  intros [[] s''|e s''|] (s3 & Hfinal & Hs3); simpl in Hfinal; simplify_eq.
  - simpl. by exists s3.
  - by apply Hhandler.
Qed.

Lemma handle_without_retrieval (s : ViewState.t) (ev : Event) :
  always (λ url init o, ¬ list_retrieved url init o)
    (λ o : Outcome unit, ∃ s', final_state o = Some s' ∧ tasks s' = tasks s)
    (handle s ev s).
Proof.
  destruct ev; unfold handle; try (step_handler; by eexists).
  - by apply fetchTasks_without_retrieval.
  - unfold addTask. destruct (truthy_string (trim (newTitle s)));
      step_handler; [|by eexists].
    intros [res|e] _; step_handler; [|by eexists].
    destruct (Response.ok res); step_handler; [|by eexists].
    apply then_fetchTasks_without_retrieval; [|done].
    intros e s'' Hs''. step_handler. by eexists.
  - unfold saveTask.
    destruct (List.find _ (tasks s)) as [current|]; [|step_handler; by eexists].
    destruct (drafts s !! id) as [draft|]; [|step_handler; by eexists].
    destruct (length _ =? 0)%nat; step_handler; [by eexists|].
    intros [res|e] _; step_handler; [|by eexists].
    destruct (Response.ok res); step_handler; [|by eexists].
    apply then_fetchTasks_without_retrieval; [|done].
    intros e s'' Hs''. step_handler. by eexists.
  - unfold resetRow. destruct (List.find _ (tasks s)); step_handler; by eexists.
  - unfold confirmDelete.
    destruct (pendingDeleteId s) as [pending|]; [|step_handler; by eexists].
    destruct (truthy_string pending); step_handler; [|by eexists].
    intros [res|e] _; step_handler; [|by eexists].
    destruct (Response.ok res); step_handler; [|by eexists].
    apply then_fetchTasks_without_retrieval; [|done].
    intros e s'' Hs''. step_handler. by eexists.
Qed.

(** X7. The tasks the page holds change by a retrieval of the list and by
    nothing else: against a remote side on which no retrieval of the list
    comes back ok, every event leaves them as they were, the submission of a
    new task, a save and a confirmed deletion included. *)
Theorem tasks_change_by_retrieval_only {W : Type}
    (net : W → string → RequestInit.t → FetchOutcome * W) (w : W)
    (s : ViewState.t) (ev : Event) :
  (∀ w url init, ¬ list_retrieved url init (net w url init).1) →
  ∃ s' w', dispatch net w s ev = Some (s', w') ∧ tasks s' = tasks s.
Proof.
  intros Hnet.
  pose proof (always_run _ _ net _ Hnet (handle_without_retrieval s ev) w) as Hrun.
  unfold dispatch. destruct (run net w (handle s ev s)) as [o w'].
  destruct Hrun as (s' & Hfinal & Hs'). exists s', w'.
  destruct o; simpl in Hfinal; by simplify_eq.
Qed.

(** X8. A submission whose title is empty or white space only sends
    nothing: [addTask] shows the toast Title is required and changes nothing
    else. *)
Theorem addTask_blank_title_sends_nothing (view s : ViewState.t) :
  all_white_space (newTitle view) →
  addTask view s = Done (Normal () (setToast (Some (error, "Title is required")) s)).
Proof.
  intros Hblank. unfold addTask. by rewrite (trim_all_white_space _ Hblank).
Qed.

(** X9. With a title that is not blank, [addTask] issues the exchange
    [TasksAPI.create] issues for the title, priority and status of the form:
    the same URL, method, headers and body, the title in the body being the
    one typed, not trimmed. They differ in the caching directive, which
    [addTask] leaves out and [http] sets to no-store. *)
Theorem addTask_issues_the_create_exchange (view s : ViewState.t) :
  trim (newTitle view) ≠ "" →
  ∃ init init',
    issued (addTask view s) = Some (API, init) ∧
    issued (TasksAPI.create
              {| TaskPayload.title := newTitle view;
                 TaskPayload.priority := newPriority view;
                 TaskPayload.status := newStatus view |}) = Some (API, init') ∧
    RequestInit.method init = Some POST ∧
    RequestInit.method init' = Some POST ∧
    RequestInit.headers init = RequestInit.headers init' ∧
    RequestInit.body init = RequestInit.body init' ∧
    RequestInit.body init =
      JSON_stringify (JObject [("title", JString (newTitle view));
                               ("priority", JString (newPriority view));
                               ("status", JString (newStatus view))]) ∧
    RequestInit.cache init = None ∧
    RequestInit.cache init' = Some cache_no_store.
Proof.
  intros Htitle%truthy_string_spec. unfold addTask, TasksAPI.create.
  rewrite Htitle, http_issues. step_handler. eexists _, _.
  split; [reflexivity|]. split; [reflexivity|]. simpl.
  by rewrite (left_id_L ∅ (∪)).
Qed.

(** X10. When the POST of [addTask] fails, the page shows the failure and
    keeps the form as the user filled it, the popup as it was, and its tasks
    and drafts; it does not fetch the list. *)
Theorem addTask_failure_keeps_form
    (view s : ViewState.t) (o : FetchOutcome) (message : string) :
  trim (newTitle view) ≠ "" →
  mutation_fails POST o message →
  ∃ s', resume (addTask view s) o = Done (Normal () s') ∧
        shows_error s s' message ∧
        isAddOpen s' = isAddOpen s ∧
        newTitle s' = newTitle s ∧
        newPriority s' = newPriority s ∧
        newStatus s' = newStatus s.
Proof.
  intros Htitle%truthy_string_spec Hfails. unfold addTask, shows_error.
  rewrite Htitle. step_handler. destruct o as [res|e]; simpl in Hfails.
  - destruct Hfails as [Hok ->]. step_handler. rewrite Hok. step_handler. by eexists.
  - subst message. step_handler. by eexists.
Qed.

(** X11. When the POST of [addTask] comes back ok, the page clears the
    error, resets the form to an empty title, Low and open, closes the
    popup, shows the toast of success, and from there does what [fetchTasks]
    does. *)
Theorem addTask_success_then_fetchTasks {W : Type}
    (net : W → string → RequestInit.t → FetchOutcome * W) (w : W)
    (view s : ViewState.t) (res : Response.t) :
  trim (newTitle view) ≠ "" →
  Response.ok res = true →
  run net w (resume (addTask view s) (Returns res)) =
  run net w (fetchTasks
    (setToast (Some (success, "Task added successfully"))
      (setIsAddOpen false
        (setNewStatus "open" (setNewPriority "Low" (setNewTitle "" (setErr "" s))))))).
Proof.
  intros Htitle%truthy_string_spec Hok. unfold addTask.
  rewrite Htitle. step_handler. rewrite Hok. step_handler.
  apply run_try_catch_settled, fetchTasks_not_thrown.
Qed.

(** X12. When the PATCH of [saveTask] fails, the page shows the failure
    and keeps the drafts, the edit that was to be saved with them, and its
    tasks; it does not fetch the list. *)
Theorem saveTask_failure_keeps_drafts
    (view s : ViewState.t) (id : string) (current : Task.t) (draft : Draft.t)
    (o : FetchOutcome) (message : string) :
  List.find (λ t, String.eqb (Task.id t) id) (tasks view) = Some current →
  drafts view !! id = Some draft →
  changed_subset current draft ≠ TaskUpdates.empty →
  mutation_fails PATCH o message →
  ∃ s', resume (saveTask view id s) o = Done (Normal () s') ∧ shows_error s s' message.
Proof.
  intros Hfind Hdraft Hchanged Hfails. unfold saveTask, shows_error.
  rewrite Hfind, Hdraft, saveTask_updates_changed_subset.
  destruct (length _ =? 0)%nat eqn:Hkeys; [by apply TaskUpdates_no_keys in Hkeys|].
  step_handler. destruct o as [res|e]; simpl in Hfails.
  - destruct Hfails as [Hok ->]. step_handler. rewrite Hok. step_handler. by eexists.
  - subst message. step_handler. by eexists.
Qed.

(** X13. When the PATCH of [saveTask] comes back ok, the page clears the
    error, shows the toast of success, and from there does what [fetchTasks]
    does: the drafts are those of the list fetched next. *)
Theorem saveTask_success_then_fetchTasks {W : Type}
    (net : W → string → RequestInit.t → FetchOutcome * W) (w : W)
    (view s : ViewState.t) (id : string) (current : Task.t) (draft : Draft.t)
    (res : Response.t) :
  List.find (λ t, String.eqb (Task.id t) id) (tasks view) = Some current →
  drafts view !! id = Some draft →
  changed_subset current draft ≠ TaskUpdates.empty →
  Response.ok res = true →
  run net w (resume (saveTask view id s) (Returns res)) =
  run net w (fetchTasks
    (setToast (Some (success, "Task updated successfully")) (setErr "" s))).
Proof.
  intros Hfind Hdraft Hchanged Hok. unfold saveTask.
  rewrite Hfind, Hdraft, saveTask_updates_changed_subset.
  destruct (length _ =? 0)%nat eqn:Hkeys; [by apply TaskUpdates_no_keys in Hkeys|].
  step_handler. rewrite Hok. step_handler.
  apply run_try_catch_settled, fetchTasks_not_thrown.
Qed.

(** X14. With a pending id that is not the empty string, [confirmDelete]
    issues the exchange [TasksAPI.remove] issues for that id: a DELETE to
    the base path, a slash and the id, with no body; [confirmDelete] gives
    no headers and no caching directive. With no pending id, or with the
    empty string pending, it does nothing at all. *)
Theorem confirmDelete_issues_the_remove_exchange (view s : ViewState.t) :
  (∀ id, pendingDeleteId view = Some id → id ≠ "" →
     ∃ init init',
       issued (confirmDelete view s) = Some (API +:+ "/" +:+ id, init) ∧
       issued (TasksAPI.remove id) = Some (API +:+ "/" +:+ id, init') ∧
       RequestInit.method init = Some DELETE ∧
       RequestInit.method init' = Some DELETE ∧
       RequestInit.body init = None ∧
       RequestInit.body init' = None ∧
       RequestInit.headers init = None ∧
       RequestInit.cache init = None) ∧
  (pendingDeleteId view = None ∨ pendingDeleteId view = Some "" →
   confirmDelete view s = Done (Normal () s)).
Proof.
  split.
  - intros id Hpending Hid%truthy_string_spec. unfold confirmDelete, TasksAPI.remove.
    rewrite Hpending, Hid, http_issues. step_handler. eexists _, _.
    split; [reflexivity|]. split; [reflexivity|]. done.
  - unfold confirmDelete. by intros [->| ->].
Qed.

(** X15. When the DELETE of [confirmDelete] fails, the page shows the
    failure and keeps the dialog open on the same pending id, and its tasks
    and drafts; it does not fetch the list. *)
Theorem confirmDelete_failure_keeps_dialog
    (view s : ViewState.t) (id : string) (o : FetchOutcome) (message : string) :
  pendingDeleteId view = Some id → id ≠ "" →
  mutation_fails DELETE o message →
  ∃ s', resume (confirmDelete view s) o = Done (Normal () s') ∧
        shows_error s s' message ∧
        confirmOpen s' = confirmOpen s ∧
        pendingDeleteId s' = pendingDeleteId s.
Proof.
  intros Hpending Hid%truthy_string_spec Hfails. unfold confirmDelete, shows_error.
  rewrite Hpending, Hid. step_handler. destruct o as [res|e]; simpl in Hfails.
  - destruct Hfails as [Hok ->]. step_handler. rewrite Hok. step_handler. by eexists.
  - subst message. step_handler. by eexists.
Qed.

(** X16. When the DELETE of [confirmDelete] comes back ok, the page clears
    the error, shows the toast of success, closes the dialog, forgets the
    pending id, and from there does what [fetchTasks] does. *)
Theorem confirmDelete_success_then_fetchTasks {W : Type}
    (net : W → string → RequestInit.t → FetchOutcome * W) (w : W)
    (view s : ViewState.t) (id : string) (res : Response.t) :
  pendingDeleteId view = Some id → id ≠ "" →
  Response.ok res = true →
  run net w (resume (confirmDelete view s) (Returns res)) =
  run net w (fetchTasks
    (setPendingDeleteId None
      (setConfirmOpen false
        (setToast (Some (success, "Task deleted successfully")) (setErr "" s))))).
Proof.
  intros Hpending Hid%truthy_string_spec Hok. unfold confirmDelete.
  rewrite Hpending, Hid. step_handler. rewrite Hok. step_handler.
  apply run_try_catch_settled, fetchTasks_not_thrown.
Qed.

(** X17. A deletion asked for and then cancelled is forgotten: the dialog
    is closed, no id is pending, and a confirmation arriving after it sends
    nothing, the remote side being left as it was. *)
Theorem cancelled_deletion_sends_nothing {W : Type}
    (net : W → string → RequestInit.t → FetchOutcome * W) (w : W)
    (s : ViewState.t) (id : string) :
  ∃ s',
    dispatch_all net w s [DeleteClicked id; DeleteCancelled; DeleteConfirmed]
      = Some (s', w) ∧
    confirmOpen s' = false ∧
    pendingDeleteId s' = None ∧
    tasks s' = tasks s ∧
    drafts s' = drafts s ∧
    toast s' = toast s ∧
    err s' = err s.
Proof. eexists. split; [reflexivity|]. done. Qed.
End HandlersFurther.

(** ** Drafts and rows *)

Section DraftsFurther.
Context `{Platform}.
Import ViewState.


Lemma find_id (id : string) (data : list Task.t) (current : Task.t) :
  List.find (λ t, String.eqb (Task.id t) id) data = Some current →
  current ∈ data ∧ Task.id current = id.
Proof.
  intros [Hin Hid]%find_some. split; [by apply list_elem_of_In|].
  by apply String.eqb_eq.
Qed.

Lemma mirrored_draft (s : ViewState.t) (id : string) (current : Task.t) :
  mirrors s →
  List.find (λ t, String.eqb (Task.id t) id) (tasks s) = Some current →
  drafts s !! id = Some (Draft_of current).
Proof. intros Hs [Hin <-]%find_id. by apply Hs. Qed.



(** X20. On a page whose drafts mirror its tasks, an edit of one field of
    a task to a value other than the one the task has, followed by Save,
    sends a PATCH for that task whose body is the serialization of the
    object of that one field with the new value. *)
Theorem edit_then_save_sends_the_edited_field
    (s : ViewState.t) (id : string) (current : Task.t)
    (field : DraftField) (value : string) :
  mirrors s →
  List.find (λ t, String.eqb (Task.id t) id) (tasks s) = Some current →
  value ≠ Task_field current field →
  ∃ s1,
    onDraftChange id field value s = Done (Normal () s1) ∧
    issued (saveTask s1 id s1) =
    Some (API +:+ "/" +:+ id,
          {| RequestInit.method := Some PATCH;
             RequestInit.cache := None;
             RequestInit.headers := Some {[ "Content-Type" := "application/json" ]};
             RequestInit.body :=
               JSON_stringify (JObject [(DraftField_key field, JString value)]) |}).
Proof.
  intros Hs Hfind Hvalue. pose proof (mirrored_draft s id current Hs Hfind) as Hdraft.
  eexists. split; [reflexivity|]. unfold saveTask. simpl.
  rewrite Hfind, lookup_insert_eq, Hdraft. simpl.
  destruct field; simpl in *; rewrite String.eqb_refl;
    destruct (String.eqb_spec value (Task.priority current)),
             (String.eqb_spec value (Task.status current)); done.
Qed.

(** X21. The flag that enables the Save button of a row tells what Save
    does: for a task that is the first of its id in the list, the flag is on
    exactly when [saveTask] on its id issues an exchange. *)
Theorem row_changed_iff_saveTask_sends (view s : ViewState.t) (t : Task.t) :
  List.find (λ t', String.eqb (Task.id t') (Task.id t)) (tasks view) = Some t →
  row_changed view t = true ↔ is_Some (issued (saveTask view (Task.id t) s)).
Proof.
  intros Hfind. unfold row_changed, row_draft, saveTask. rewrite Hfind.
  destruct (drafts view !! Task.id t) as [draft|]; simpl.
  - destruct (String.eqb (Draft.priority draft) (Task.priority t)),
             (String.eqb (Draft.status draft) (Task.status t)); simpl;
      split; intros Hyp; try done; try by eexists.
  - rewrite !String.eqb_refl. simpl. split; [done|]. by intros [? ?].
Qed.

(** X22. On a page whose drafts mirror its tasks, every row shows the
    priority and status of its task and has its Save and Reset buttons
    disabled. *)
Theorem mirrored_rows_are_unchanged (view : ViewState.t) (t : Task.t) :
  mirrors view → t ∈ tasks view →
  row_draft view t = Draft_of t ∧ row_changed view t = false.
Proof.
  intros Hview Ht. unfold row_changed, row_draft. rewrite (Hview t Ht). simpl.
  by rewrite !String.eqb_refl.
Qed.
End DraftsFurther.

(** ** Filters and their options *)

Section FiltersFurther.
Import ViewState.

Lemma filteredTasks_unfiltered (view : ViewState.t) :
  trim (q view) = "" → priorityFilter view = "All" → statusFilter view = "All" →
  filteredTasks view = tasks view.
Proof.
  intros Hq Hpriority Hstatus. unfold filteredTasks.
  rewrite Hq, Hpriority, Hstatus. simpl.
  induction (tasks view) as [|t l IH]; simpl; [done|]. by rewrite IH.
Qed.

(** X23. After [resetFilters] the page shows all its tasks, in their
    order, and the toast Filters reset. *)
Theorem resetFilters_shows_all_tasks (s : ViewState.t) :
  ∃ s',
    resetFilters s = Done (Normal () s') ∧
    filteredTasks s' = tasks s ∧
    tasks s' = tasks s ∧
    toast s' = Some (info, "Filters reset").
Proof.
  eexists. split; [reflexivity|]. split; [|done].
  by rewrite filteredTasks_unfiltered.
Qed.

Lemma is_white_space_toLowerCase (c : ascii) :
  is_white_space (toLowerCase_ascii c) = is_white_space c.
Proof. destruct c as [[] [] [] [] [] [] [] []]; reflexivity. Qed.

Lemma toLowerCase_ascii_idempotent (c : ascii) :
  toLowerCase_ascii (toLowerCase_ascii c) = toLowerCase_ascii c.
Proof. destruct c as [[] [] [] [] [] [] [] []]; reflexivity. Qed.

Lemma toLowerCase_idempotent (s : string) :
  toLowerCase (toLowerCase s) = toLowerCase s.
Proof.
  induction s as [|c s IH]; simpl; [done|].
  by rewrite toLowerCase_ascii_idempotent, IH.
Qed.

Lemma trimStart_toLowerCase (s : string) :
  trimStart (toLowerCase s) = toLowerCase (trimStart s).
Proof.
  induction s as [|c s IH]; simpl; [done|].
  rewrite is_white_space_toLowerCase. by destruct (is_white_space c).
Qed.

Lemma trimEnd_toLowerCase (s : string) :
  trimEnd (toLowerCase s) = toLowerCase (trimEnd s).
Proof.
  induction s as [|c s IH]; simpl; [done|].
  rewrite IH, is_white_space_toLowerCase.
  destruct (trimEnd s); simpl; [|done]. by destruct (is_white_space c).
Qed.

(** X24. The case of the query does not matter: the page shows the same
    tasks for a query and for the query in lower case. *)
Theorem filteredTasks_ignores_query_case (view : ViewState.t) (query : string) :
  filteredTasks (setQ (toLowerCase query) view) = filteredTasks (setQ query view).
Proof.
  unfold filteredTasks, trim. simpl.
  by rewrite trimStart_toLowerCase, trimEnd_toLowerCase, toLowerCase_idempotent.
Qed.

Lemma existsb_eqb (x : string) (set : list string) :
  existsb (String.eqb x) set = true ↔ x ∈ set.
Proof.
  rewrite existsb_exists. split.
  - intros (y & Hin & ->%String.eqb_eq). by apply list_elem_of_In.
  - intros Hin. exists x. split; [by apply list_elem_of_In|apply String.eqb_refl].
Qed.

Lemma foldl_Set_add (set items : list string) :
  NoDup set →
  NoDup (foldl Set_add set items) ∧
  ∀ x, x ∈ foldl Set_add set items ↔ x ∈ set ∨ x ∈ items.
Proof.
  revert set. induction items as [|y items IH]; intros set Hset; simpl.
  - split; [done|]. intros x. rewrite elem_of_nil. tauto.
  - unfold Set_add at 2 4. destruct (existsb (String.eqb y) set) eqn:Hy.
    + apply existsb_eqb in Hy. destruct (IH set Hset) as [Hnodup Hin].
      split; [done|]. intros x. rewrite Hin, elem_of_cons.
      split; [tauto|]. intros [?|[->|?]]; tauto.
    + assert (y ∉ set) as Hfresh.
      { intros Hin%existsb_eqb. congruence. }
      assert (NoDup (set ++ [y])) as Hset'.
      { apply NoDup_app. split; [done|]. split; [|apply NoDup_singleton].
        intros x Hx ->%list_elem_of_singleton. done. }
      destruct (IH _ Hset') as [Hnodup Hin]. split; [done|].
      intros x. rewrite Hin, elem_of_app, list_elem_of_singleton, elem_of_cons. tauto.
Qed.

Lemma Array_from_new_Set_spec (items : list string) :
  NoDup (Array_from_new_Set items) ∧
  ∀ x, x ∈ Array_from_new_Set items ↔ x ∈ items.
Proof.
  destruct (foldl_Set_add [] items (NoDup_nil_2)) as [Hnodup Hin].
  split; [done|]. intros x. unfold Array_from_new_Set. rewrite Hin, elem_of_nil. tauto.
Qed.

Lemma elem_of_map_Task (f : Task.t → string) (data : list Task.t) (p : string) :
  p ∈ List.map f data ↔ ∃ t, t ∈ data ∧ f t = p.
Proof.
  rewrite list_elem_of_In, in_map_iff. split.
  - intros (t & <- & Ht). exists t. split; [by apply list_elem_of_In|done].
  - intros (t & Ht & <-). exists t. split; [done|by apply list_elem_of_In].
Qed.

Lemma priority_option_in_use (view : ViewState.t) (p : string) :
  p ∈ priorities view → p ≠ "All" → ∃ t, t ∈ tasks view ∧ Task.priority t = p.
Proof.
  unfold priorities. intros [->|Hp]%elem_of_cons Hne; [done|].
  by apply Array_from_new_Set_spec, elem_of_map_Task in Hp.
Qed.

(** X25. The options of the priority filter are All followed by the
    priorities of the tasks, each once; those of the status filter are All
    followed by the statuses of the tasks, each once. *)
Theorem filter_options_are_All_and_the_values_in_use (view : ViewState.t) :
  (∃ rest, priorities view = "All" :: rest ∧ NoDup rest ∧
           ∀ p, p ∈ rest ↔ ∃ t, t ∈ tasks view ∧ Task.priority t = p) ∧
  (∃ rest, statuses view = "All" :: rest ∧ NoDup rest ∧
           ∀ p, p ∈ rest ↔ ∃ t, t ∈ tasks view ∧ Task.status t = p).
Proof.
  split; eexists; (split; [reflexivity|]).
  - destruct (Array_from_new_Set_spec (List.map Task.priority (tasks view)))
      as [Hnodup Hin].
    split; [done|]. intros p. by rewrite Hin, elem_of_map_Task.
  - destruct (Array_from_new_Set_spec (List.map Task.status (tasks view)))
      as [Hnodup Hin].
    split; [done|]. intros p. by rewrite Hin, elem_of_map_Task.
Qed.

(** X26. Every option of the priority filter other than All selects
    something: with that option chosen, no query and the status filter on
    All, the page shows exactly the tasks of that priority, in their order,
    and there is at least one. *)
Theorem listed_priority_selects_its_tasks (view : ViewState.t) (p : string) :
  p ∈ priorities view → p ≠ "All" →
  filteredTasks (setPriorityFilter p (setStatusFilter "All" (setQ "" view)))
    = List.filter (λ t, String.eqb (Task.priority t) p) (tasks view) ∧
  filteredTasks (setPriorityFilter p (setStatusFilter "All" (setQ "" view))) ≠ [].
Proof.
  intros Hp Hne.
  assert (filteredTasks (setPriorityFilter p (setStatusFilter "All" (setQ "" view)))
          = List.filter (λ t, String.eqb (Task.priority t) p) (tasks view)) as Heq.
  { unfold filteredTasks. simpl. apply String.eqb_neq in Hne. rewrite Hne.
    apply filter_ext. intros t. by rewrite andb_true_r. }
  split; [done|]. rewrite Heq.
  destruct (priority_option_in_use view p Hp Hne) as (t & Ht & Hpriority).
  intros Hempty. assert (In t []) as []. rewrite <- Hempty.
  apply filter_In. split; [by apply list_elem_of_In|]. by apply String.eqb_eq.
Qed.
End FiltersFurther.

(** ** Instances on the sample data *)

Lemma sample_loaded_mirrors : mirrors Sample.loaded.
Proof.
  intros t Ht. simpl in Ht.
  repeat (apply elem_of_cons in Ht as [->|Ht]; [vm_compute; reflexivity|]).
  by apply elem_of_nil in Ht.
Defined.

Lemma sample_title_not_blank : trim (ViewState.newTitle Sample.typing) ≠ "".
Proof. vm_compute. discriminate. Defined.

Lemma sample_failing_net_retrieves_nothing (w : unit) (url : string) (init : RequestInit.t) :
  ¬ list_retrieved url init (Sample.failing_net w url init).1.
Proof. intros (_ & res & [= <-] & Hok). vm_compute in Hok. discriminate. Defined.

Lemma sample_edit_changes_priority :
  changed_subset Sample.milk (Draft.mk "High" "open") ≠ TaskUpdates.empty.
Proof. vm_compute. discriminate. Defined.

Lemma fetchTasks_failure_keeps_tasks_witness :
  @retrieval_fails ReferenceJSON.platform (Returns Sample.not_found) "HTTP 404" ∧
  ∃ s', resume (@fetchTasks ReferenceJSON.platform Sample.loaded) (Returns Sample.not_found)
          = Done (Normal () s') ∧
        shows_error Sample.loaded s' "HTTP 404" ∧ ViewState.loading s' = false.
Proof.
  split; [reflexivity|].
  apply (@fetchTasks_failure_keeps_tasks ReferenceJSON.platform). reflexivity.
Defined.

Lemma tasks_change_by_retrieval_only_witness :
  (∀ w url init, ¬ list_retrieved url init (Sample.failing_net w url init).1) ∧
  ∃ s' w',
    @dispatch ReferenceJSON.platform unit Sample.failing_net () Sample.typing AddSubmitted
      = Some (s', w') ∧
    ViewState.tasks s' = ViewState.tasks Sample.typing.
Proof.
  split; [exact sample_failing_net_retrieves_nothing|].
  apply (@tasks_change_by_retrieval_only ReferenceJSON.platform unit).
  exact sample_failing_net_retrieves_nothing.
Defined.

Lemma addTask_blank_title_sends_nothing_witness :
  all_white_space (ViewState.newTitle Sample.typing_blank) ∧
  @addTask ReferenceJSON.platform Sample.typing_blank Sample.typing_blank
  = Done (Normal () (setToast (Some (error, "Title is required")) Sample.typing_blank)).
Proof.
  assert (all_white_space (ViewState.newTitle Sample.typing_blank)) as Hblank.
  { intros c Hc. simpl in Hc.
    repeat (apply elem_of_cons in Hc as [->|Hc]; [reflexivity|]).
    by apply elem_of_nil in Hc. }
  split; [exact Hblank|].
  apply (@addTask_blank_title_sends_nothing ReferenceJSON.platform). exact Hblank.
Defined.

Lemma addTask_issues_the_create_exchange_witness :
  trim (ViewState.newTitle Sample.typing) ≠ "" ∧
  ∃ init init',
    issued (@addTask ReferenceJSON.platform Sample.typing Sample.typing)
      = Some (API, init) ∧
    issued (@TasksAPI.create ReferenceJSON.platform
              {| TaskPayload.title := ViewState.newTitle Sample.typing;
                 TaskPayload.priority := ViewState.newPriority Sample.typing;
                 TaskPayload.status := ViewState.newStatus Sample.typing |})
      = Some (API, init') ∧
    RequestInit.method init = Some POST ∧
    RequestInit.method init' = Some POST ∧
    RequestInit.headers init = RequestInit.headers init' ∧
    RequestInit.body init = RequestInit.body init' ∧
    RequestInit.body init =
      @JSON_stringify ReferenceJSON.platform
        (JObject [("title", JString (ViewState.newTitle Sample.typing));
                  ("priority", JString (ViewState.newPriority Sample.typing));
                  ("status", JString (ViewState.newStatus Sample.typing))]) ∧
    RequestInit.cache init = None ∧
    RequestInit.cache init' = Some cache_no_store.
Proof.
  split; [exact sample_title_not_blank|].
  apply (@addTask_issues_the_create_exchange ReferenceJSON.platform).
  exact sample_title_not_blank.
Defined.

Lemma addTask_failure_keeps_form_witness :
  trim (ViewState.newTitle Sample.typing) ≠ "" ∧
  mutation_fails POST (Returns Sample.not_found) "POST failed: HTTP 404" ∧
  ∃ s', resume (@addTask ReferenceJSON.platform Sample.typing Sample.typing)
               (Returns Sample.not_found) = Done (Normal () s') ∧
        shows_error Sample.typing s' "POST failed: HTTP 404" ∧
        ViewState.isAddOpen s' = ViewState.isAddOpen Sample.typing ∧
        ViewState.newTitle s' = ViewState.newTitle Sample.typing ∧
        ViewState.newPriority s' = ViewState.newPriority Sample.typing ∧
        ViewState.newStatus s' = ViewState.newStatus Sample.typing.
Proof.
  split; [exact sample_title_not_blank|]. split; [by split|].
  apply (@addTask_failure_keeps_form ReferenceJSON.platform);
    [exact sample_title_not_blank|by split].
Defined.

Lemma addTask_success_then_fetchTasks_witness :
  trim (ViewState.newTitle Sample.typing) ≠ "" ∧
  Response.ok Sample.created = true ∧
  run Sample.net ()
    (resume (@addTask ReferenceJSON.platform Sample.typing Sample.typing)
            (Returns Sample.created)) =
  run Sample.net ()
    (@fetchTasks ReferenceJSON.platform
      (setToast (Some (success, "Task added successfully"))
        (setIsAddOpen false
          (setNewStatus "open" (setNewPriority "Low" (setNewTitle ""
            (setErr "" Sample.typing))))))).
Proof.
  split; [exact sample_title_not_blank|]. split; [reflexivity|].
  apply (@addTask_success_then_fetchTasks ReferenceJSON.platform unit);
    [exact sample_title_not_blank|reflexivity].
Defined.

Lemma saveTask_failure_keeps_drafts_witness :
  List.find (λ t, String.eqb (Task.id t) "1") (ViewState.tasks Sample.edited)
    = Some Sample.milk ∧
  ViewState.drafts Sample.edited !! "1" = Some (Draft.mk "High" "open") ∧
  changed_subset Sample.milk (Draft.mk "High" "open") ≠ TaskUpdates.empty ∧
  mutation_fails PATCH (Returns Sample.not_found) "PATCH failed: HTTP 404" ∧
  ∃ s', resume (@saveTask ReferenceJSON.platform Sample.edited "1" Sample.edited)
               (Returns Sample.not_found) = Done (Normal () s') ∧
        shows_error Sample.edited s' "PATCH failed: HTTP 404".
Proof.
  split; [reflexivity|]. split; [reflexivity|].
  split; [exact sample_edit_changes_priority|]. split; [by split|].
  apply (@saveTask_failure_keeps_drafts ReferenceJSON.platform Sample.edited Sample.edited
           "1" Sample.milk (Draft.mk "High" "open"));
    [reflexivity|reflexivity|exact sample_edit_changes_priority|by split].
Defined.

Lemma saveTask_success_then_fetchTasks_witness :
  List.find (λ t, String.eqb (Task.id t) "1") (ViewState.tasks Sample.edited)
    = Some Sample.milk ∧
  ViewState.drafts Sample.edited !! "1" = Some (Draft.mk "High" "open") ∧
  changed_subset Sample.milk (Draft.mk "High" "open") ≠ TaskUpdates.empty ∧
  Response.ok Sample.response = true ∧
  run Sample.net ()
    (resume (@saveTask ReferenceJSON.platform Sample.edited "1" Sample.edited)
            (Returns Sample.response)) =
  run Sample.net ()
    (@fetchTasks ReferenceJSON.platform
      (setToast (Some (success, "Task updated successfully"))
        (setErr "" Sample.edited))).
Proof.
  split; [reflexivity|]. split; [reflexivity|].
  split; [exact sample_edit_changes_priority|]. split; [reflexivity|].
  apply (@saveTask_success_then_fetchTasks ReferenceJSON.platform unit Sample.net ()
           Sample.edited Sample.edited "1" Sample.milk (Draft.mk "High" "open"));
    [reflexivity|reflexivity|exact sample_edit_changes_priority|reflexivity].
Defined.

Lemma confirmDelete_issues_the_remove_exchange_witness :
  ViewState.pendingDeleteId Sample.deleting = Some "1" ∧
  "1" ≠ "" ∧
  ∃ init init',
    issued (@confirmDelete ReferenceJSON.platform Sample.deleting Sample.deleting)
      = Some (API +:+ "/" +:+ "1", init) ∧
    issued (@TasksAPI.remove ReferenceJSON.platform "1")
      = Some (API +:+ "/" +:+ "1", init') ∧
    RequestInit.method init = Some DELETE ∧
    RequestInit.method init' = Some DELETE ∧
    RequestInit.body init = None ∧
    RequestInit.body init' = None ∧
    RequestInit.headers init = None ∧
    RequestInit.cache init = None.
Proof.
  split; [reflexivity|]. split; [discriminate|].
  apply (proj1 (@confirmDelete_issues_the_remove_exchange ReferenceJSON.platform
                  Sample.deleting Sample.deleting) "1"); [reflexivity|discriminate].
Defined.

Lemma confirmDelete_failure_keeps_dialog_witness :
  ViewState.pendingDeleteId Sample.deleting = Some "1" ∧
  "1" ≠ "" ∧
  mutation_fails DELETE (Returns Sample.not_found) "DELETE failed: HTTP 404" ∧
  ∃ s', resume (@confirmDelete ReferenceJSON.platform Sample.deleting Sample.deleting)
               (Returns Sample.not_found) = Done (Normal () s') ∧
        shows_error Sample.deleting s' "DELETE failed: HTTP 404" ∧
        ViewState.confirmOpen s' = ViewState.confirmOpen Sample.deleting ∧
        ViewState.pendingDeleteId s' = ViewState.pendingDeleteId Sample.deleting.
Proof.
  split; [reflexivity|]. split; [discriminate|]. split; [by split|].
  apply (@confirmDelete_failure_keeps_dialog ReferenceJSON.platform Sample.deleting
           Sample.deleting "1"); [reflexivity|discriminate|by split].
Defined.

Lemma confirmDelete_success_then_fetchTasks_witness :
  ViewState.pendingDeleteId Sample.deleting = Some "1" ∧
  "1" ≠ "" ∧
  Response.ok (Response.of_status 200 "") = true ∧
  run Sample.net ()
    (resume (@confirmDelete ReferenceJSON.platform Sample.deleting Sample.deleting)
            (Returns (Response.of_status 200 ""))) =
  run Sample.net ()
    (@fetchTasks ReferenceJSON.platform
      (setPendingDeleteId None
        (setConfirmOpen false
          (setToast (Some (success, "Task deleted successfully"))
            (setErr "" Sample.deleting))))).
Proof.
  split; [reflexivity|]. split; [discriminate|]. split; [reflexivity|].
  apply (@confirmDelete_success_then_fetchTasks ReferenceJSON.platform unit Sample.net ()
           Sample.deleting Sample.deleting "1"); [reflexivity|discriminate|reflexivity].
Defined.


Lemma edit_then_save_sends_the_edited_field_witness :
  mirrors Sample.loaded ∧
  List.find (λ t, String.eqb (Task.id t) "1") (ViewState.tasks Sample.loaded)
    = Some Sample.milk ∧
  "High" ≠ Task_field Sample.milk field_priority ∧
  ∃ s1,
    @onDraftChange "1" field_priority "High" Sample.loaded = Done (Normal () s1) ∧
    issued (@saveTask ReferenceJSON.platform s1 "1" s1) =
    Some (API +:+ "/" +:+ "1",
          {| RequestInit.method := Some PATCH;
             RequestInit.cache := None;
             RequestInit.headers := Some {[ "Content-Type" := "application/json" ]};
             RequestInit.body :=
               @JSON_stringify ReferenceJSON.platform
                 (JObject [(DraftField_key field_priority, JString "High")]) |}).
Proof.
  split; [exact sample_loaded_mirrors|]. split; [reflexivity|]. split; [discriminate|].
  apply (@edit_then_save_sends_the_edited_field ReferenceJSON.platform Sample.loaded "1"
           Sample.milk field_priority "High");
    [exact sample_loaded_mirrors|reflexivity|discriminate].
Defined.

Lemma row_changed_iff_saveTask_sends_witness :
  List.find (λ t', String.eqb (Task.id t') (Task.id Sample.milk))
            (ViewState.tasks Sample.edited) = Some Sample.milk ∧
  (row_changed Sample.edited Sample.milk = true ↔
   is_Some (issued (@saveTask ReferenceJSON.platform Sample.edited
                      (Task.id Sample.milk) Sample.edited))).
Proof.
  split; [reflexivity|].
  apply (@row_changed_iff_saveTask_sends ReferenceJSON.platform). reflexivity.
Defined.

Lemma mirrored_rows_are_unchanged_witness :
  mirrors Sample.loaded ∧
  Sample.milk ∈ ViewState.tasks Sample.loaded ∧
  row_draft Sample.loaded Sample.milk = Draft_of Sample.milk ∧
  row_changed Sample.loaded Sample.milk = false.
Proof.
  split; [exact sample_loaded_mirrors|]. split; [left|].
  apply mirrored_rows_are_unchanged; [exact sample_loaded_mirrors|left].
Defined.

Lemma listed_priority_selects_its_tasks_witness :
  "High" ∈ priorities Sample.loaded ∧
  "High" ≠ "All" ∧
  filteredTasks (setPriorityFilter "High" (setStatusFilter "All" (setQ "" Sample.loaded)))
    = List.filter (λ t, String.eqb (Task.priority t) "High")
        (ViewState.tasks Sample.loaded) ∧
  filteredTasks (setPriorityFilter "High" (setStatusFilter "All" (setQ "" Sample.loaded)))
    ≠ [].
Proof.
  assert ("High" ∈ priorities Sample.loaded) as Hlisted.
  { vm_compute. right. right. left. }
  split; [exact Hlisted|]. split; [discriminate|].
  apply listed_priority_selects_its_tasks; [exact Hlisted|discriminate].
Defined.
